(** * pypush: the IDS identity container and the registration exchange

    A shallow embedding of [src/ids/identity.py]: the class [IDSIdentity]
    with its [decode] and [encode] methods, and the function [register]
    (the request body it builds and the way it reads the server's answer).

    Python values are embedded as follows: [int] is [Z], [bytes] is a list
    of [Byte.byte], [str] is [string], a raised exception is the left
    summand of [result]. *)

From Stdlib Require Import ZArith List String Ascii Bool Lia.
From Stdlib Require Import Strings.Byte.
From Stdlib Require Import Floats.SpecFloat.
Import ListNotations.

Set Warnings "-register-all".
Local Open Scope string_scope.
Local Open Scope list_scope.
Local Open Scope Z_scope.

(** ** Python data *)

Definition bytes := list byte.

(** The values [plistlib] can read or write (and [register] handles):
    [None], integers, booleans, reals, strings, data, dates, UIDs, arrays and
    dictionaries.  The keys of a dictionary are strings in an XML plist and
    in the request; a binary plist can hold keys of other kinds.  A
    dictionary keeps its insertion order, so it is an association list;
    lookup takes the first binding. *)
Inductive pyval : Type :=
| PNone
| PInt (n : Z)
| PBool (b : bool)
| PReal (f : spec_float)
| PStr (s : string)
| PBytes (b : bytes)
| PDate (t : Z)
| PUID (n : Z)
| PList (l : list pyval)
| PDict (d : list (pyval * pyval)).

(** The exceptions the embedded code raises.  [PyException msg detail] is
    [raise Exception(f"{msg}{detail}")]; [LibraryError] stands for whatever
    a helper outside this file raises. *)
Inductive PyErr : Type :=
| AssertionError
| OverflowError
| ValueError (msg : string)
| AttributeError (attr : string)
| TypeError
| KeyError (key : pyval)
| IndexError
| BinasciiError
| PyException (msg : string) (detail : option pyval)
| LibraryError (msg : string).

Definition result (A : Type) : Type := (PyErr + A)%type.

Definition Ok {A} (a : A) : result A := inr a.
Definition Raise {A} (e : PyErr) : result A := inl e.

Definition bind {A B} (m : result A) (k : A -> result B) : result B :=
  match m with
  | inl e => inl e
  | inr a => k a
  end.

Notation "x <- m ;; k" := (bind m (fun x => k))
  (at level 61, m at next level, right associativity).
Notation "' p <- m ;; k" := (bind m (fun x => let p := x in k))
  (at level 61, p pattern, m at next level, right associativity).
Notation "m ;;; k" := (bind m (fun _ => k))
  (at level 61, right associativity).

(** [assert c] *)
Definition py_assert (c : bool) : result unit :=
  if c then Ok tt else Raise AssertionError.

(** ** Bytes and integers *)

Definition byte_to_Z (b : byte) : Z := Z.of_N (Byte.to_N b).

Definition byte_of_Z (z : Z) : byte :=
  match Byte.of_N (Z.to_N (z mod 256)) with
  | Some b => b
  | None => x00
  end.

Fixpoint bytes_eqb (a b : bytes) : bool :=
  match a, b with
  | [], [] => true
  | x :: a', y :: b' => Byte.eqb x y && bytes_eqb a' b'
  | _, _ => false
  end.

(** [int.from_bytes(b, "big")] *)
Definition int_from_bytes (b : bytes) : Z :=
  fold_left (fun acc x => acc * 256 + byte_to_Z x) b 0.

(** The [length] big-endian base-256 digits of [n]. *)
Fixpoint be_digits (length : nat) (n : Z) : bytes :=
  match length with
  | O => []
  | S k => be_digits k (n / 256) ++ [byte_of_Z (n mod 256)]
  end.

(** [n.to_bytes(length, "big")]: unsigned, so a negative [n] and an [n] that
    needs more than [length] bytes both raise [OverflowError]. *)
Definition int_to_bytes (n : Z) (length : nat) : result bytes :=
  if n <? 0 then Raise OverflowError
  else if 256 ^ Z.of_nat length <=? n then Raise OverflowError
  else Ok (be_digits length n).

(** ** io.BytesIO *)

(** A stream is its buffer and its position. *)
Record BytesIO := mkBytesIO { buffer : bytes; pos : nat }.

Definition BytesIO_new (initial : bytes) : BytesIO := mkBytesIO initial 0.

(** [s.read(n)]: up to [n] bytes from the position on, which advances by
    the number of bytes returned. *)
Definition read (s : BytesIO) (n : nat) : bytes * BytesIO :=
  let chunk := firstn n (skipn (pos s) (buffer s)) in
  (chunk, mkBytesIO (buffer s) (pos s + List.length chunk)).

(** [s.write(b)] on a stream that is only ever appended to. *)
Definition write (s : BytesIO) (b : bytes) : BytesIO :=
  mkBytesIO (buffer s ++ b) (pos s + List.length b).

Definition getvalue (s : BytesIO) : bytes := buffer s.

(** [b[i:j]] for [0 <= i <= j]. *)
Definition slice (b : bytes) (i j : nat) : bytes := firstn (j - i) (skipn i b).

(** ** Keys *)

Inductive curve : Type :=
| SECP256R1
| SECP384R1
| SECP256K1
| SECP192R1.

Record EllipticCurvePublicNumbers := mkEC { ec_x : Z; ec_y : Z; ec_curve : curve }.
Record RSAPublicNumbers := mkRSA { rsa_e : Z; rsa_n : Z }.

(** A key object of the [cryptography] package, as far as this module looks
    into it: a private key carries its secret and its public numbers. *)
Inductive Key : Type :=
| ECPrivateKey (private_value : Z) (pub : EllipticCurvePublicNumbers)
| ECPublicKey (pub : EllipticCurvePublicNumbers)
| RSAPrivateKey (d : Z) (pub : RSAPublicNumbers)
| RSAPublicKey (pub : RSAPublicNumbers).

(** [key.public_key()] *)
Definition public_key (k : Key) : result Key :=
  match k with
  | ECPrivateKey _ p => Ok (ECPublicKey p)
  | RSAPrivateKey _ p => Ok (RSAPublicKey p)
  | _ => Raise (AttributeError "public_key")
  end.

(** [key.public_numbers().n], [.x] and [.y]; the attribute is missing on a
    key of the other kind. *)
Definition public_numbers_n (k : Key) : result Z :=
  match k with
  | RSAPublicKey p => Ok (rsa_n p)
  | ECPublicKey _ => Raise (AttributeError "n")
  | _ => Raise (AttributeError "public_numbers")
  end.

Definition public_numbers_x (k : Key) : result Z :=
  match k with
  | ECPublicKey p => Ok (ec_x p)
  | RSAPublicKey _ => Raise (AttributeError "x")
  | _ => Raise (AttributeError "public_numbers")
  end.

Definition public_numbers_y (k : Key) : result Z :=
  match k with
  | ECPublicKey p => Ok (ec_y p)
  | RSAPublicKey _ => Raise (AttributeError "y")
  | _ => Raise (AttributeError "public_numbers")
  end.

(** The domain parameters of NIST P-256. *)
Definition P256_p : Z :=
  0xffffffff00000001000000000000000000000000ffffffffffffffffffffffff.
Definition P256_b : Z :=
  0x5ac635d8aa3a93e7b3ebbd55769886bc651d06b0cc53b0f63bce3c3e27d2604b.

Definition P256_on_curve (x y : Z) : bool :=
  (0 <=? x) && (x <? P256_p) && (0 <=? y) && (y <? P256_p)
  && ((y * y) mod P256_p =? (x * x * x - 3 * x + P256_b) mod P256_p).

(** [ec.EllipticCurvePublicNumbers(x, y, ec.SECP256R1()).public_key()]: the
    crypto provider refuses a point that is not on the curve. *)
Definition EllipticCurvePublicNumbers_public_key (x y : Z) : result Key :=
  if P256_on_curve x y then Ok (ECPublicKey (mkEC x y SECP256R1))
  else Raise (ValueError "Invalid EC key.").

(** [rsa.RSAPublicNumbers(e, n).public_key()]: the crypto provider checks
    [n >= 3], [3 <= e < n] and that [e] is odd. *)
Definition RSAPublicNumbers_public_key (e n : Z) : result Key :=
  if n <? 3 then Raise (ValueError "n must be >= 3.")
  else if (e <? 3) || (n <=? e) then Raise (ValueError "e must be >= 3 and < n.")
  else if Z.even e then Raise (ValueError "e must be odd.")
  else Ok (RSAPublicKey (mkRSA e n)).

(** ** class IDSIdentity *)

Section Identity.

(** A serialised key: the text [serialize_key] produces. *)
Variable PEM : Type.

(** [parse_key] and [serialize_key] of [ids/_helpers.py], which is not
    part of the sources at hand, are parameters. *)
Variable parse_key : PEM -> result Key.
Variable serialize_key : Key -> PEM.

(** The key generators of the crypto provider: the key the next call of
    [ec.generate_private_key(curve)] and of
    [rsa.generate_private_key(public_exponent, key_size)] returns. *)
Variable ec_generate_private_key : curve -> Key.
Variable rsa_generate_private_key : Z -> Z -> Key.

Record IDSIdentity := mkIdentity {
  signing_key : option PEM;
  signing_public_key : PEM;
  encryption_key : option PEM;
  encryption_public_key : PEM
}.

(** One half of [__init__]: the private key and the public key stored
    for the arguments [key] and [pub], a new key being [fresh]. *)
Definition init_key_pair (key pub : option PEM) (fresh : Key)
  : result (option PEM * PEM) :=
  match key, pub with
  | Some key, _ =>
      k <- parse_key key ;;
      p <- public_key k ;;
      Ok (Some key, serialize_key p)
  | None, Some pub => Ok (None, pub)
  | None, None =>
      let key := serialize_key fresh in
      k <- parse_key key ;;
      p <- public_key k ;;
      Ok (Some key, serialize_key p)
  end.

(** [IDSIdentity.__init__] *)
Definition IDSIdentity_init
    (signing_key encryption_key signing_public_key encryption_public_key : option PEM)
  : result IDSIdentity :=
  '(sk, spk) <- init_key_pair signing_key signing_public_key
                  (ec_generate_private_key SECP256R1) ;;
  '(ek, epk) <- init_key_pair encryption_key encryption_public_key
                  (rsa_generate_private_key 65537 1280) ;;
  Ok (mkIdentity sk spk ek epk).

(** [IDSIdentity.decode] *)
Definition decode (inp : bytes) : result IDSIdentity :=
  let input := BytesIO_new inp in
  let '(hdr, input) := read input 5 in
  py_assert (bytes_eqb hdr [x30; x81; xf6; x81; x43]) ;;;
  let '(raw_ecdsa, input) := read input 67 in
  let '(sep, input) := read input 3 in
  py_assert (bytes_eqb sep [x82; x81; xae]) ;;;
  let '(raw_rsa, input) := read input 174 in
  (* Parse the RSA key *)
  let raw_rsa := BytesIO_new raw_rsa in
  let '(t, raw_rsa) := read raw_rsa 2 in
  py_assert (bytes_eqb t [x00; xac]) ;;;
  let '(t, raw_rsa) := read raw_rsa 3 in
  py_assert (bytes_eqb t [x30; x81; xa9]) ;;;
  let '(t, raw_rsa) := read raw_rsa 3 in
  py_assert (bytes_eqb t [x02; x81; xa1]) ;;;
  let '(rsa_modulus, raw_rsa) := read raw_rsa 161 in
  let rsa_modulus := int_from_bytes rsa_modulus in
  let '(t, raw_rsa) := read raw_rsa 5 in
  py_assert (bytes_eqb t [x02; x03; x01; x00; x01]) ;;;
  (* Parse the EC key *)
  py_assert (bytes_eqb (slice raw_ecdsa 0 3) [x00; x41; x04]) ;;;
  let raw_ecdsa := skipn 3 raw_ecdsa in
  let ec_x := int_from_bytes (slice raw_ecdsa 0 32) in
  let ec_y := int_from_bytes (skipn 32 raw_ecdsa) in
  ec_key <- EllipticCurvePublicNumbers_public_key ec_x ec_y ;;
  rsa_key <- RSAPublicNumbers_public_key 65537 rsa_modulus ;;
  IDSIdentity_init None None
    (Some (serialize_key ec_key)) (Some (serialize_key rsa_key)).

(** [IDSIdentity.encode] *)
Definition encode (self : IDSIdentity) : result bytes :=
  let output := BytesIO_new [] in
  let raw_rsa := BytesIO_new [] in
  let raw_rsa := write raw_rsa [x00; xac] in
  let raw_rsa := write raw_rsa [x30; x81; xa9] in
  let raw_rsa := write raw_rsa [x02; x81; xa1] in
  k <- parse_key (encryption_public_key self) ;;
  n <- public_numbers_n k ;;
  b <- int_to_bytes n 161 ;;
  let raw_rsa := write raw_rsa b in
  let raw_rsa := write raw_rsa [x02; x03; x01; x00; x01] in (* Hardcode the exponent *)
  let output := write output [x30; x81; xf6; x81; x43] in
  let output := write output [x00; x41; x04] in
  k <- parse_key (signing_public_key self) ;;
  x <- public_numbers_x k ;;
  b <- int_to_bytes x 32 ;;
  let output := write output b in
  k <- parse_key (signing_public_key self) ;;
  y <- public_numbers_y k ;;
  b <- int_to_bytes y 32 ;;
  let output := write output b in
  let output := write output [x82; x81; xae] in
  let output := write output (getvalue raw_rsa) in
  Ok (getvalue output).

End Identity.

Arguments mkIdentity {PEM}.
Arguments signing_key {PEM}.
Arguments signing_public_key {PEM}.
Arguments encryption_key {PEM}.
Arguments encryption_public_key {PEM}.
Arguments encode {PEM}.
Arguments decode {PEM}.

(** ** Python operators on plist values *)

(** Whether the real [f] is the integer [k]. *)
Definition SF_eq_Z (f : spec_float) (k : Z) : bool :=
  match f with
  | S754_zero _ => k =? 0
  | S754_finite s m e =>
      let v := if s then Z.neg m else Z.pos m in
      if 0 <=? e then v * 2 ^ e =? k else v =? k * 2 ^ (- e)
  | _ => false
  end.

(** [v == k] for an integer [k]: numbers compare by value ([True] is 1 and
    [False] is 0), everything else differs from an integer. *)
Definition py_eq_int (v : pyval) (k : Z) : bool :=
  match v with
  | PInt n => n =? k
  | PBool b => (if b then 1 else 0) =? k
  | PReal f => SF_eq_Z f k
  | _ => false
  end.

(** [d[key]] for a string [key], when there is such a key: among the keys
    of a dictionary only the same string equals a string. *)
Fixpoint dict_get (d : list (pyval * pyval)) (key : string) : option pyval :=
  match d with
  | [] => None
  | (PStr k, v) :: d' => if String.eqb k key then Some v else dict_get d' key
  | _ :: d' => dict_get d' key
  end.

(** [d[i]] for an integer [i], when there is such a key: a key that is a
    number equal to [i] is the key [i]. *)
Fixpoint dict_get_int (d : list (pyval * pyval)) (i : Z) : option pyval :=
  match d with
  | [] => None
  | (k, v) :: d' => if py_eq_int k i then Some v else dict_get_int d' i
  end.

Definition is_some {A} (o : option A) : bool :=
  match o with Some _ => true | None => false end.

(** [key in v] for a string [key]: a key of a dictionary, an element of a
    list, a substring of a string; other values are not containers (and
    [bytes] refuses a [str] operand). *)
Definition py_contains (key : string) (v : pyval) : result bool :=
  match v with
  | PDict d => Ok (is_some (dict_get d key))
  | PList l =>
      Ok (existsb (fun x => match x with PStr s => String.eqb s key | _ => false end) l)
  | PStr s => Ok (is_some (index 0 key s))
  | _ => Raise TypeError
  end.

(** [v[key]] for a string [key] *)
Definition py_getitem (v : pyval) (key : string) : result pyval :=
  match v with
  | PDict d =>
      match dict_get d key with
      | Some x => Ok x
      | None => Raise (KeyError (PStr key))
      end
  | _ => Raise TypeError
  end.

(** [v[i]] for an index [i >= 0] *)
Definition py_index (v : pyval) (i : nat) : result pyval :=
  match v with
  | PList l =>
      match nth_error l i with
      | Some x => Ok x
      | None => Raise IndexError
      end
  | PDict d =>
      match dict_get_int d (Z.of_nat i) with
      | Some x => Ok x
      | None => Raise (KeyError (PInt (Z.of_nat i)))
      end
  | PStr s =>
      match String.get i s with
      | Some c => Ok (PStr (String c EmptyString))
      | None => Raise IndexError
      end
  | PBytes b =>
      match nth_error b i with
      | Some x => Ok (PInt (byte_to_Z x))
      | None => Raise IndexError
      end
  | _ => Raise TypeError
  end.

(** [a and b] on truth values: [b] is evaluated only when [a] holds. *)
Definition py_and (a b : result bool) : result bool :=
  x <- a ;; if x then b else Ok false.

(** ** base64.b64decode *)

(** The alphabet table of [binascii]. *)
Definition table_a2b_base64 (c : byte) : option Z :=
  let n := byte_to_Z c in
  if (65 <=? n) && (n <=? 90) then Some (n - 65)
  else if (97 <=? n) && (n <=? 122) then Some (n - 71)
  else if (48 <=? n) && (n <=? 57) then Some (n + 4)
  else if n =? 43 then Some 62
  else if n =? 47 then Some 63
  else None.

(** The decoding loop of [binascii.a2b_base64] outside strict mode: bytes
    off the alphabet are skipped, a complete padding ends the input, and an
    unfinished quad at the end is an error. *)
Fixpoint a2b_base64_loop (data : bytes) (quad_pos leftchar pads : Z) (bin : bytes)
  : result bytes :=
  match data with
  | [] => if quad_pos =? 0 then Ok bin else Raise BinasciiError
  | this_ch :: rest =>
      if Byte.eqb this_ch x3d then
        if 2 <=? quad_pos then
          if 4 <=? quad_pos + (pads + 1) then Ok bin
          else a2b_base64_loop rest quad_pos leftchar (pads + 1) bin
        else a2b_base64_loop rest quad_pos leftchar pads bin
      else
        match table_a2b_base64 this_ch with
        | None => a2b_base64_loop rest quad_pos leftchar pads bin
        | Some v =>
            if quad_pos =? 0 then
              a2b_base64_loop rest 1 v 0 bin
            else if quad_pos =? 1 then
              a2b_base64_loop rest 2 (Z.land v 15) 0
                (bin ++ [byte_of_Z (Z.lor (Z.shiftl leftchar 2) (Z.shiftr v 4))])
            else if quad_pos =? 2 then
              a2b_base64_loop rest 3 (Z.land v 3) 0
                (bin ++ [byte_of_Z (Z.lor (Z.shiftl leftchar 4) (Z.shiftr v 2))])
            else
              a2b_base64_loop rest 0 0 0
                (bin ++ [byte_of_Z (Z.lor (Z.shiftl leftchar 6) v)])
        end
  end.

Definition a2b_base64 (data : bytes) : result bytes :=
  a2b_base64_loop data 0 0 0 [].

Fixpoint str_encode_ascii (s : string) : option bytes :=
  match s with
  | EmptyString => Some []
  | String c s' =>
      if (N_of_ascii c <? 128)%N then
        option_map (cons (byte_of_ascii c)) (str_encode_ascii s')
      else None
  end.

(** [b64decode(s)]: an ASCII string or a bytes object is decoded. *)
Definition b64decode (s : pyval) : result bytes :=
  match s with
  | PStr s =>
      match str_encode_ascii s with
      | Some b => a2b_base64 b
      | None => Raise (ValueError "string argument should contain only ASCII characters")
      end
  | PBytes b => a2b_base64 b
  | _ => Raise TypeError
  end.

(** ** The static service catalog of [register] *)

(** The reals 2.0 and 12.0. *)
Definition float_2 : spec_float := S754_finite false 4503599627370496 (-51).
Definition float_12 : spec_float := S754_finite false 6755399441055744 (-49).

Definition capability (name : string) (version : Z) : pyval :=
  PDict [(PStr "flags", PInt 1); (PStr "name", PStr name); (PStr "version", PInt version)].

Definition user_entry (client_data : list (pyval * pyval)) (uris user_id : pyval)
  : pyval :=
  PDict [(PStr "client-data", PDict client_data); (PStr "uris", uris); (PStr "user-id", user_id)].

(** services[0] *)
Definition service_madrid (identity_key : bytes) (uris user_id : pyval) : pyval :=
  PDict
    [(PStr "capabilities", PList [capability "Messenger" 1]);
     (PStr "service", PStr "com.apple.madrid");
     (PStr "sub-services", PList [
      PStr "com.apple.private.alloy.sms";
      PStr "com.apple.private.alloy.gelato";
      PStr "com.apple.private.alloy.biz";
      PStr "com.apple.private.alloy.gamecenter.imessage" ]);
     (PStr "users", PList [
       user_entry [
         (PStr "is-c2k-equipment", PBool true);
         (PStr "optionally-receive-typing-indicators", PBool true);
         (PStr "public-message-identity-key", PBytes identity_key);
         (PStr "public-message-identity-version", PInt 2);
         (PStr "show-peer-errors", PBool true);
         (PStr "supports-ack-v1", PBool true);
         (PStr "supports-activity-sharing-v1", PBool true);
         (PStr "supports-audio-messaging-v2", PBool true);
         (PStr "supports-autoloopvideo-v1", PBool true);
         (PStr "supports-be-v1", PBool true);
         (PStr "supports-ca-v1", PBool true);
         (PStr "supports-fsm-v1", PBool true);
         (PStr "supports-fsm-v2", PBool true);
         (PStr "supports-fsm-v3", PBool true);
         (PStr "supports-ii-v1", PBool true);
         (PStr "supports-impact-v1", PBool true);
         (PStr "supports-inline-attachments", PBool true);
         (PStr "supports-keep-receipts", PBool true);
         (PStr "supports-location-sharing", PBool true);
         (PStr "supports-media-v2", PBool true);
         (PStr "supports-photos-extension-v1", PBool true);
         (PStr "supports-st-v1", PBool true);
         (PStr "supports-update-attachments-v1", PBool true) ] uris user_id ])].

Definition ngm_device_prekey_data_key : bytes :=
  [
   x0a; x20; xb4; x5c; x15; x8e; xa4; xc8; xe5; x07; x98; x09; x70; xd0; xa4; x5e;
   x84; x6b; x05; x23; x45; x70; xa9; x2a; xcd; xad; x74; xf5; xb0; xfb; xa6; x5f;
   x68; x6f; x12; x40; xe3; xf5; xca; x4f; x77; x68; xfd; xb9; xec; x44; x09; x0e;
   x9e; xb8; xb0; xa1; x1c; x3d; x92; x9d; x44; x2f; x6c; x6d; x4c; xde; x2e; x5c;
   x6f; xeb; x15; x3e; x9f; xae; xd9; xf9; xd1; x9c; x2a; x8d; x55; xe0; xd2; xde;
   x6f; xb2; xcb; xd8; xf8; x69; xd4; xd0; x61; x5e; x09; x21; x0f; x61; xb2; xdd;
   x49; xfc; x5f; x2a; x19; xb2; xf0; x23; x12; xe0; x40; xd9; x41 ].

(** The identity container written into the catalog entry of
    com.apple.private.alloy.facetime.multi. *)
Definition facetime_identity_key : bytes :=
  [
   x30; x81; xf6; x81; x43; x00; x41; x04; x87; x1e; xeb; xe4; x75; x0b; xa3; x9e;
   x9c; xbc; xf8; x72; x4b; x1e; xfe; x34; x34; x25; x66; x24; x1d; xe8; xbb; xc6;
   xbd; x43; x44; x9c; x6b; x76; x20; x4b; xc1; x1e; xb1; xdf; x34; xc8; x53; x36;
   x0f; x92; xd0; x3d; x1e; x84; x9c; xc5; xa5; xb6; xb7; x7d; xdd; xec; x1e; x1e;
   xd8; x51; xd8; xca; xdb; x07; x27; xc7; x82; x81; xae; x00; xac; x30; x81; xa9;
   x02; x81; xa1; x00; xa8; x20; xfc; x9f; xa6; xb0; x56; x32; xce; x1c; xa7; x13;
   x9e; x03; xd1; xd8; x97; x61; xbb; xdd; xac; x86; xb8; x10; x28; x89; x13; x51;
   x50; x8f; xf0; x2b; x45; x50; xd1; xb0; x36; xee; x94; xcd; xa8; x9e; xf1; xed;
   x70; xa4; x97; x32; x36; x1e; xe9; xab; xd4; xcb; xac; x05; xd7; x8c; x3f; xbb;
   xa2; xde; x2c; xfe; x0d; x1a; xb9; x88; x57; x40; x99; xec; xa0; x5d; x0d; x1a;
   x3e; x64; x56; xb2; x40; xc5; x50; xf3; x6d; x80; x79; xf5; xa0; x47; xae; xd8;
   x68; x92; xef; xca; x85; xcb; x42; xed; xa9; x57; x8c; x13; xd4; x4f; xdb; x59;
   x49; x32; xdc; x4d; x1f; xf6; x63; x17; x1c; xd1; x76; xdd; xbc; x63; xac; x2c;
   x26; x56; xfd; x07; xa0; xc3; x9f; x00; x1f; xc6; xe4; x02; x75; x12; x70; x8f;
   xe2; xb0; x14; xfa; x69; x12; xbb; xa6; x9a; x36; x51; xa5; xde; x2b; x9e; x7b;
   xcf; xc8; x1b; x7d; x02; x03; x01; x00; x01 ].

Definition device_key_signature : bytes :=
  [
   x30; x61; x04; x14; x1d; xb0; x32; x7e; xef; x6b; x26; xf8; x0d; x3b; x52; xa4;
   x95; x63; x7e; x8a; x90; x48; x85; xb0; x02; x01; x01; x04; x46; x30; x44; x02;
   x20; x40; xce; xa7; x50; x36; x89; x92; x57; x66; x87; xc9; xc5; x4d; x2d; xb1;
   xe5; x51; x9f; x7f; x4b; x69; x1b; x70; xd5; x12; x1c; x2c; x3a; xdb; xed; x08;
   x12; x02; x20; x6c; xfd; x5c; xe2; xd3; x3a; x2c; xc1; xd8; x08; x7c; xbe; x05;
   x4d; x12; xee; x40; xc2; x3d; x65; x52; x38; x3a; xa7; x68; x33; x75; x7c; x83;
   x69; x61; x19 ].

Definition kt_loggable_data : bytes :=
  [
   x0a; x22; x0a; x20; x0d; x6c; xbe; xca; xf7; xe8; xb2; x89; x6b; x18; x1e; xb9;
   x2c; x64; xf8; xe2; x0a; xbf; x8d; xe1; x45; xd6; xf3; x54; xcb; xd9; x99; x64;
   xd1; x6d; x6b; xeb; x10; x0c; x18; x05 ].

(** services[1] *)
Definition service_facetime_multi (uris user_id : pyval) : pyval :=
  PDict
    [(PStr "capabilities", PList [capability "Invitation" 1]);
     (PStr "service", PStr "com.apple.private.alloy.facetime.multi");
     (PStr "sub-services", PList []);
     (PStr "users", PList [
       PDict [
         (PStr "client-data", PDict [
            (PStr "public-message-ngm-device-prekey-data-key", PBytes ngm_device_prekey_data_key);
            (PStr "supports-avless", PBool true);
            (PStr "public-message-identity-key", PBytes facetime_identity_key);
            (PStr "supports-gft-calls", PBool true);
            (PStr "public-message-identity-version", PReal float_2);
            (PStr "supports-co", PBool true);
            (PStr "supports-gft-errors", PBool true);
            (PStr "supports-self-one-to-one-invites", PBool true);
            (PStr "supports-modern-gft", PBool true);
            (PStr "public-message-identity-ngm-version", PReal float_12);
            (PStr "device-key-signature", PBytes device_key_signature) ]);
         (PStr "kt-loggable-data", PBytes kt_loggable_data);
         (PStr "uris", uris);
         (PStr "user-id", user_id) ] ])].

(** services[2] *)
Definition service_ess (identity_key : bytes) (uris user_id : pyval) : pyval :=
  PDict
    [(PStr "capabilities", PList [capability "Invitation" 21]);
     (PStr "service", PStr "com.apple.ess");
     (PStr "sub-services", PList [
      PStr "com.apple.private.alloy.facetime.video";
      PStr "com.apple.private.alloy.facetime.sync";
      PStr "com.apple.private.alloy.facetime.lp";
      PStr "com.apple.private.alloy.facetime.mw" ]);
     (PStr "users", PList [
       user_entry [
         (PStr "public-message-identity-key", PBytes identity_key);
         (PStr "public-message-identity-version", PInt 2);
         (PStr "supports-avless", PBool true);
         (PStr "supports-co", PBool true);
         (PStr "supports-gft-calls", PBool true);
         (PStr "supports-gft-errors", PBool true);
         (PStr "supports-modern-gft", PBool true);
         (PStr "supports-self-one-to-one-invites", PBool true) ] uris user_id ])].

(** services[3] *)
Definition service_multiplex1 (identity_key : bytes) (uris user_id : pyval) : pyval :=
  PDict
    [(PStr "capabilities", PList [capability "com.apple.private.alloy" 1]);
     (PStr "service", PStr "com.apple.private.alloy.multiplex1");
     (PStr "sub-services", PList [
      PStr "com.apple.private.alloy.continuity.encryption";
      PStr "com.apple.private.alloy.willow.stream";
      PStr "com.apple.private.alloy.status.keysharing";
      PStr "com.apple.private.alloy.ids.cloudmessaging";
      PStr "com.apple.private.alloy.avconference.icloud";
      PStr "com.apple.private.alloy.keytransparency.accountkey.pinning";
      PStr "com.apple.private.alloy.gamecenter";
      PStr "com.apple.private.alloy.thumper.keys";
      PStr "com.apple.private.alloy.electrictouch";
      PStr "com.apple.private.alloy.alarms-timers";
      PStr "com.apple.private.alloy.continuity.activity";
      PStr "com.apple.private.alloy.home.invite";
      PStr "com.apple.private.alloy.safeview";
      PStr "com.apple.private.alloy.screensharing.qr";
      PStr "com.apple.private.alloy.phone.auth";
      PStr "com.apple.private.alloy.home";
      PStr "com.apple.private.alloy.groupkit.invite";
      PStr "com.apple.private.alloy.fmf";
      PStr "com.apple.private.alloy.continuity.tethering";
      PStr "com.apple.private.alloy.status.personal";
      PStr "com.apple.private.alloy.amp.potluck";
      PStr "com.apple.private.alloy.screentime";
      PStr "com.apple.private.alloy.copresence";
      PStr "com.apple.private.alloy.screentime.invite";
      PStr "com.apple.private.alloy.tips";
      PStr "com.apple.private.alloy.siri.icloud";
      PStr "com.apple.private.alloy.maps.eta";
      PStr "com.apple.private.alloy.phonecontinuity";
      PStr "com.apple.private.alloy.sleep.icloud";
      PStr "com.apple.private.alloy.usagetracking";
      PStr "com.apple.private.alloy.icloudpairing";
      PStr "com.apple.private.alloy.clockface.sharing";
      PStr "com.apple.private.alloy.carmelsync";
      PStr "com.apple.private.alloy.messagenotification";
      PStr "com.apple.private.alloy.digitalhealth";
      PStr "com.apple.private.alloy.ded";
      PStr "com.apple.private.alloy.screensharing";
      PStr "com.apple.private.alloy.contextsync";
      PStr "com.apple.private.alloy.accessibility.switchcontrol";
      PStr "com.apple.private.alloy.familycontrols";
      PStr "com.apple.private.alloy.fmd";
      PStr "com.apple.private.alloy.willow";
      PStr "com.apple.private.alloy.coreduet.sync";
      PStr "com.apple.private.alloy.nearby";
      PStr "com.apple.private.alloy.safari.groupactivities";
      PStr "com.apple.private.alloy.groupkit";
      PStr "com.apple.private.alloy.accounts.representative";
      PStr "com.apple.private.alloy.notes";
      PStr "com.apple.private.alloy.classroom";
      PStr "com.apple.private.alloy.applepay";
      PStr "com.apple.private.alloy.proxiedcrashcopier.icloud";
      PStr "com.apple.private.alloy.continuity.unlock";
      PStr "com.apple.private.alloy.nearby.family" ]);
     (PStr "users", PList [
       user_entry [
         (PStr "public-message-identity-key", PBytes identity_key);
         (PStr "public-message-identity-version", PInt 2);
         (PStr "supports-beacon-sharing-v2", PBool true);
         (PStr "supports-beneficiary-invites", PBool true);
         (PStr "supports-cross-platform-sharing", PBool true);
         (PStr "supports-fmd-v2", PBool true);
         (PStr "supports-incoming-fmd-v1", PBool true);
         (PStr "supports-maps-routing-path-leg", PBool true);
         (PStr "supports-maps-waypoint-route-sharing", PBool true);
         (PStr "supports-screen-time-v2", PBool true);
         (PStr "supports-secure-loc-v1", PBool true) ] uris user_id ])].

(** ** register *)

Section Register.

Variable PEM : Type.
Variable parse_key : PEM -> result Key.

(** What [register] takes from outside this module; [ids/signing.py] and
    [ids/_helpers.py] are not part of the sources at hand. *)
Variable KeyPair : Type.
Variable PROTOCOL_VERSION : pyval.
(** [add_auth_signature(headers, body, bag_key, auth_key, push_key,
    push_token, auth_number)] extends [headers] in place: it returns the
    headers it leaves behind. *)
Variable add_auth_signature :
  list (string * pyval) -> bytes -> string -> KeyPair -> KeyPair -> pyval -> Z ->
  result (list (string * pyval)).
(** Modelled from the spec: [armour_cert] of [ids/signing.py] is missing;
    the armour is an external, format-preserving transform of a
    certificate blob into its textual envelope. *)
Variable armour_cert : pyval -> string.

(** The environment: the value of [uuid.uuid4().hex.upper()], the plist
    codec, and [requests.post(url, headers, data).content]. *)
Variable uuid4_hex_upper : string.
Variable plistlib_dumps : pyval -> result bytes.
Variable plistlib_loads : bytes -> result pyval.
Variable requests_post : string -> list (string * pyval) -> bytes -> result bytes.

(** [uris = [{"uri": handle} for handle in handles]] *)
Definition make_uris (handles : list pyval) : pyval :=
  PList (map (fun handle => PDict [(PStr "uri", handle)]) handles).

(** The dictionary [body] of lines 117 to 315, its values evaluated in
    the order they are written. *)
Definition build_body (handles : list pyval) (user_id : pyval)
    (identity : IDSIdentity PEM) (validation_data : pyval) : result pyval :=
  let uris := make_uris handles in
  let u := uuid4_hex_upper in
  key0 <- encode parse_key identity ;;
  key2 <- encode parse_key identity ;;
  key3 <- encode parse_key identity ;;
  vd <- b64decode validation_data ;;
  Ok (PDict
    [(PStr "device-name", PStr "pypush");
     (PStr "hardware-version", PStr "MacBookPro18,3");
     (PStr "language", PStr "en-US");
     (PStr "os-version", PStr "macOS,13.2.1,22D68");
     (PStr "software-version", PStr "22D68");
     (PStr "private-device-data", PDict [(PStr "u", PStr u)]);
     (PStr "services", PList
        [service_madrid key0 uris user_id;
         service_facetime_multi uris user_id;
         service_ess key2 uris user_id;
         service_multiplex1 key3 uris user_id]);
     (PStr "validation-data", PBytes vd)]).

(** [r["services"][i]["users"][0]["cert"]] *)
Definition cert_at (r : pyval) (i : nat) : result pyval :=
  services <- py_getitem r "services" ;;
  service <- py_index services i ;;
  users <- py_getitem service "users" ;;
  user <- py_index users 0 ;;
  py_getitem user "cert".

(** Lines 334 to 344: the checks on the answer [r], in their order. *)
Definition validate_response (r : pyval) : result unit :=
  expired <- py_and (py_contains "status" r)
               (status <- py_getitem r "status" ;; Ok (py_eq_int status 6004)) ;;
  if expired then Raise (PyException "Validation data expired!" None) else
  (* TODO: Do validation of nested statuses *)
  failed <- py_and (py_contains "status" r)
              (status <- py_getitem r "status" ;; Ok (negb (py_eq_int status 0))) ;;
  if failed then Raise (PyException "Failed to register: " (Some r)) else
  has <- py_contains "services" r ;;
  if negb has then Raise (PyException "No services in response: " (Some r)) else
  services <- py_getitem r "services" ;;
  service0 <- py_index services 0 ;;
  has <- py_contains "users" service0 ;;
  if negb has then Raise (PyException "No users in response: " (Some r)) else
  users <- py_getitem service0 "users" ;;
  user0 <- py_index users 0 ;;
  has <- py_contains "cert" user0 ;;
  if negb has then Raise (PyException "No cert in response: " (Some r)) else
  Ok tt.

(** Lines 346 to 354: the dictionary [register] returns. *)
Definition extract_certs (r : pyval) : result (list (string * string)) :=
  c0 <- cert_at r 0 ;;
  c1 <- cert_at r 1 ;;
  c2 <- cert_at r 2 ;;
  c3 <- cert_at r 3 ;;
  Ok [("com.apple.madrid", armour_cert c0);
      ("com.apple.private.alloy.facetime.multi", armour_cert c1);
      ("com.apple.ess", armour_cert c2);
      ("com.apple.private.alloy.multiplex1", armour_cert c3)].

(** Lines 334 to 354: what [register] does with the parsed answer. *)
Definition process_response (r : pyval) : result (list (string * string)) :=
  validate_response r ;;;
  extract_certs r.

Definition register (push_token : pyval) (handles : list pyval) (user_id : pyval)
    (auth_key push_key : KeyPair) (identity : IDSIdentity PEM)
    (validation_data : pyval) : result (list (string * string)) :=
  body <- build_body handles user_id identity validation_data ;;
  body <- plistlib_dumps body ;;
  let headers :=
    [("x-protocol-version", PROTOCOL_VERSION); ("x-auth-user-id-0", user_id)] in
  headers <- add_auth_signature headers body "id-register" auth_key push_key
               push_token 0 ;;
  content <- requests_post
    "https://identity.ess.apple.com/WebObjects/TDIdentityService.woa/wa/register"
    headers body ;;
  r <- plistlib_loads content ;;
  process_response r.

End Register.

Arguments build_body {PEM}.
Arguments register {PEM}.

(** ** Observations used in the statements *)

(** The container [inp] with the byte at offset [i] replaced by [b]. *)
Definition set_byte (inp : bytes) (i : nat) (b : byte) : bytes :=
  firstn i inp ++ b :: skipn (S i) inp.

(** The offsets of the constant fields of the container: the outer header
    and the point-format tag (0 to 7), the separator and the three tags of
    the RSA block (72 to 82), the exponent trailer (244 to 248). *)
Definition in_tag_region (i : nat) : bool :=
  (i <? 8)%nat || ((72 <=? i)%nat && (i <? 83)%nat)
  || ((244 <=? i)%nat && (i <? 249)%nat).

(** The stream [s] over the buffer [l] stands at offset [p], or past the
    end when [p] is. *)
Definition at_offset (s : BytesIO) (l : bytes) (p : nat) : Prop :=
  buffer s = l /\ skipn (pos s) l = skipn p l.

(** The seven constant fields of a container are in place. *)
Definition well_tagged (inp : bytes) : Prop :=
  slice inp 0 5 = [x30; x81; xf6; x81; x43]
  /\ slice inp 5 8 = [x00; x41; x04]
  /\ slice inp 72 75 = [x82; x81; xae]
  /\ slice inp 75 77 = [x00; xac]
  /\ slice inp 77 80 = [x30; x81; xa9]
  /\ slice inp 80 83 = [x02; x81; xa1]
  /\ slice inp 244 249 = [x02; x03; x01; x00; x01].

(** [body["services"][i]["users"][0]] of a request body. *)
Definition request_user (body : pyval) (i : nat) : result pyval :=
  services <- py_getitem body "services" ;;
  service <- py_index services i ;;
  users <- py_getitem service "users" ;;
  py_index users 0.

(** [body["services"][i]["users"][0]["client-data"]["public-message-identity-key"]] *)
Definition request_identity_key (body : pyval) (i : nat) : result pyval :=
  user <- request_user body i ;;
  client_data <- py_getitem user "client-data" ;;
  py_getitem client_data "public-message-identity-key".


(** Whether the status check of [register] lets the answer through: there
    is no status, or it equals 0. *)
Definition status_passes (d : list (pyval * pyval)) : bool :=
  match dict_get d "status" with
  | None => true
  | Some s => py_eq_int s 0
  end.

(** The exceptions of indexing and lookup, as opposed to the ones
    [register] raises itself. *)
Definition is_lookup_error (e : PyErr) : bool :=
  match e with
  | KeyError _ | IndexError | TypeError => true
  | _ => false
  end.

(** ** Test doubles for the helpers *)

(** A serialisation that keeps the key object as it is. *)
Definition plain_parse_key (k : Key) : result Key := Ok k.
Definition plain_serialize_key (k : Key) : Key := k.

(** The base point of P-256 and of secp256k1. *)
Definition P256_G : EllipticCurvePublicNumbers :=
  mkEC 0x6b17d1f2e12c4247f8bce6e563a440f277037d812deb33a0f4a13945d898c296
       0x4fe342e2fe1a7f9b8ee7eb4a7c0f9e162bce33576b315ececbb6406837bf51f5
       SECP256R1.
Definition SECP256K1_G : EllipticCurvePublicNumbers :=
  mkEC 0x79be667ef9dcbbac55a06295ce870b07029bfcdb2dce28d959f2815b16f81798
       0x483ada7726a3c4655da4fbfc0e1108a8fd17b448a68554199c47d08ffb10d4b8
       SECP256K1.

(** The modulus inside [facetime_identity_key]. *)
Definition sample_modulus : Z := int_from_bytes (slice facetime_identity_key 83 244).

(** Generators that return the same key at every call. *)
Definition fixed_ec_generate_private_key (c : curve) : Key :=
  ECPrivateKey 1 (mkEC (ec_x P256_G) (ec_y P256_G) c).
Definition fixed_rsa_generate_private_key (e size : Z) : Key :=
  RSAPrivateKey 1 (mkRSA e sample_modulus).

Definition plain_decode : bytes -> result (IDSIdentity Key) :=
  decode plain_parse_key plain_serialize_key
    fixed_ec_generate_private_key fixed_rsa_generate_private_key.

(** An identity with both private keys, one with the RSA exponent 3, and
    one signing on secp256k1. *)
Definition sample_identity : IDSIdentity Key :=
  mkIdentity (Some (ECPrivateKey 1 P256_G)) (ECPublicKey P256_G)
             (Some (RSAPrivateKey 1 (mkRSA 65537 sample_modulus)))
             (RSAPublicKey (mkRSA 65537 sample_modulus)).
Definition identity_e3 : IDSIdentity Key :=
  mkIdentity None (ECPublicKey P256_G) None (RSAPublicKey (mkRSA 3 sample_modulus)).
Definition identity_k1 : IDSIdentity Key :=
  mkIdentity None (ECPublicKey SECP256K1_G) None
             (RSAPublicKey (mkRSA 65537 sample_modulus)).

(** An armour for examples: the length of the blob in unary, in brackets. *)
Definition sample_armour_cert (c : pyval) : string :=
  match c with
  | PBytes b => "<" ++ String.concat "" (map (fun _ => "*") b) ++ ">"
  | _ => "<>"
  end.

(** An answer with four services, each with one user and a certificate. *)
Definition sample_response : pyval :=
  PDict
    [(PStr "status", PInt 0);
     (PStr "services", PList
        [PDict [(PStr "users", PList [PDict [(PStr "cert", PBytes [x01])]])];
         PDict [(PStr "users", PList [PDict [(PStr "cert", PBytes [x02; x02])]])];
         PDict [(PStr "users", PList [PDict [(PStr "cert", PBytes [x03; x03; x03])]])];
         PDict [(PStr "users", PList [PDict [(PStr "cert", PBytes [x04; x04; x04; x04])]])]])].

(** An answer as a binary plist can hold it: the services are a dictionary
    under the integer keys 0 to 3. *)
Definition keyed_response : pyval :=
  PDict
    [(PStr "services", PDict
        [(PInt 0, PDict [(PStr "users", PList [PDict [(PStr "cert", PBytes [x01])]])]);
         (PInt 1, PDict [(PStr "users", PList [PDict [(PStr "cert", PBytes [x02])]])]);
         (PInt 2, PDict [(PStr "users", PList [PDict [(PStr "cert", PBytes [x03])]])]);
         (PInt 3, PDict [(PStr "users", PList [PDict [(PStr "cert", PBytes [x04])]])])])].

(** A serialisation that can fail: the text [None] does not parse. *)
Definition opt_parse_key (s : option Key) : result Key :=
  match s with
  | Some k => Ok k
  | None => Raise (ValueError "Could not deserialize key data.")
  end.
Definition opt_serialize_key (k : Key) : option Key := Some k.

(** An identity whose modulus needs 162 bytes, and one whose encryption key
    is an elliptic-curve key. *)
Definition identity_big : IDSIdentity Key :=
  mkIdentity None (ECPublicKey P256_G) None (RSAPublicKey (mkRSA 65537 (256 ^ 161))).
Definition identity_two_ec : IDSIdentity Key :=
  mkIdentity None (ECPublicKey P256_G) None (ECPublicKey P256_G).


(** A signer that adds nothing, a codec and a server that answer
    [sample_response] to every request. *)
Definition sample_add_auth_signature (headers : list (string * pyval)) (body : bytes)
    (bag_key : string) (auth_key push_key : unit) (push_token : pyval)
    (auth_number : Z) : result (list (string * pyval)) :=
  Ok headers.
Definition sample_plistlib_dumps (body : pyval) : result bytes := Ok [].
Definition sample_plistlib_loads (content : bytes) : result pyval := Ok sample_response.
Definition sample_requests_post (url : string) (headers : list (string * pyval))
    (data : bytes) : result bytes :=
  Ok [].

Definition sample_register (identity : IDSIdentity Key) (validation_data : pyval)
  : result (list (string * string)) :=
  register plain_parse_key unit (PStr "1640") sample_add_auth_signature
    sample_armour_cert "0123456789ABCDEF0123456789ABCDEF"
    sample_plistlib_dumps sample_plistlib_loads sample_requests_post
    (PBytes [x01; x02]) [PStr "mailto:user@example.com"] (PStr "D:100") tt tt
    identity validation_data.

(** * Properties *)

(** ** Bytes and integers *)


Lemma byte_to_of_Z (z : Z) : byte_to_Z (byte_of_Z z) = z mod 256.
Proof.
  unfold byte_to_Z, byte_of_Z.
  assert (Hr : 0 <= z mod 256 < 256) by (apply Z.mod_pos_bound; lia).
  destruct (Byte.of_N (Z.to_N (z mod 256))) as [b|] eqn:E.
  - apply Byte.to_of_N in E. rewrite E. lia.
  - apply Byte.of_N_None_iff in E. lia.
Qed.

Lemma bytes_eqb_eq (a b : bytes) : bytes_eqb a b = true <-> a = b.
Proof.
  revert b. induction a as [|x a IH]; intros [|y b]; simpl; split;
    try congruence; try reflexivity.
  - intros H. apply andb_prop in H. destruct H as [H1 H2].
    apply Byte.byte_dec_bl in H1. apply IH in H2. congruence.
  - intros H. injection H as -> ->.
    rewrite (Byte.byte_dec_lb eq_refl). simpl. apply IH. reflexivity.
Qed.

Lemma bytes_eqb_neq (a b : bytes) : bytes_eqb a b = false <-> a <> b.
Proof.
  pose proof (bytes_eqb_eq a b) as H.
  destruct (bytes_eqb a b); split; intros; try congruence.
  - exfalso. apply H0. apply H. reflexivity.
  - intros E. apply H in E. discriminate.
Qed.

Lemma int_from_bytes_snoc (l : bytes) (b : byte) :
  int_from_bytes (l ++ [b]) = int_from_bytes l * 256 + byte_to_Z b.
Proof.
  unfold int_from_bytes. rewrite fold_left_app. reflexivity.
Qed.

Lemma be_digits_length (len : nat) (n : Z) : List.length (be_digits len n) = len.
Proof.
  revert n. induction len as [|k IH]; intros n; simpl.
  - reflexivity.
  - rewrite length_app, IH. simpl. lia.
Qed.

Lemma int_from_be_digits (len : nat) (n : Z) :
  0 <= n < 256 ^ Z.of_nat len -> int_from_bytes (be_digits len n) = n.
Proof.
  revert n. induction len as [|k IH]; intros n Hn.
  - simpl in *. unfold int_from_bytes. simpl. lia.
  - simpl be_digits. rewrite int_from_bytes_snoc, byte_to_of_Z, Z.mod_mod by lia.
    rewrite IH.
    + pose proof (Z.div_mod n 256 ltac:(lia)). lia.
    + rewrite Nat2Z.inj_succ, Z.pow_succ_r in Hn by lia.
      split.
      * apply Z.div_pos; lia.
      * apply Z.div_lt_upper_bound; lia.
Qed.

Lemma int_to_bytes_ok (n : Z) (len : nat) :
  0 <= n < 256 ^ Z.of_nat len -> int_to_bytes n len = Ok (be_digits len n).
Proof.
  intros [H0 H1]. unfold int_to_bytes.
  destruct (n <? 0) eqn:E0; [apply Z.ltb_lt in E0; lia|].
  destruct (256 ^ Z.of_nat len <=? n) eqn:E1; [apply Z.leb_le in E1; lia|].
  reflexivity.
Qed.

Lemma int_to_bytes_overflow (n : Z) (len : nat) :
  n < 0 \/ 256 ^ Z.of_nat len <= n -> int_to_bytes n len = Raise OverflowError.
Proof.
  intros H. unfold int_to_bytes.
  destruct (n <? 0) eqn:E0; [reflexivity|].
  destruct (256 ^ Z.of_nat len <=? n) eqn:E1; [reflexivity|].
  apply Z.ltb_ge in E0. apply Z.leb_gt in E1. lia.
Qed.

(** ** Reading a stream *)

Lemma at_offset_new (l : bytes) : at_offset (BytesIO_new l) l 0.
Proof. split; reflexivity. Qed.

Lemma skipn_past_chunk (l : bytes) (p n : nat) :
  skipn (p + List.length (firstn n (skipn p l))) l = skipn (p + n) l.
Proof.
  rewrite length_firstn, length_skipn.
  destruct (Nat.le_gt_cases (p + n) (List.length l)) as [H|H].
  - f_equal. lia.
  - rewrite !skipn_all2 by lia. reflexivity.
Qed.

Lemma read_at (s : BytesIO) (l : bytes) (p n : nat) (chunk : bytes) (s' : BytesIO) :
  at_offset s l p ->
  read s n = (chunk, s') ->
  chunk = firstn n (skipn p l) /\ at_offset s' l (p + n).
Proof.
  intros [Hb Hp] E. unfold read in E. injection E as <- <-.
  rewrite Hb, Hp. split; [reflexivity|]. split; [reflexivity|]. simpl.
  rewrite (Nat.add_comm (pos s)), <- skipn_skipn, Hp, skipn_skipn, (Nat.add_comm _ p).
  apply skipn_past_chunk.
Qed.

Lemma skipn_of_chunk (l : bytes) (p k q : nat) :
  skipn q (firstn k (skipn p l)) = firstn (k - q) (skipn (p + q) l).
Proof.
  rewrite skipn_firstn_comm, skipn_skipn. f_equal. f_equal. lia.
Qed.

Lemma nth_error_slice (l : bytes) (a b k : nat) :
  (k < b - a)%nat -> nth_error (slice l a b) k = nth_error l (a + k).
Proof.
  intros H. unfold slice. rewrite nth_error_firstn.
  destruct (Nat.ltb_spec k (b - a)); [|lia].
  apply nth_error_skipn.
Qed.

Ltac step_read :=
  match goal with
  | H : at_offset ?s ?l ?p |- context [read ?s ?n] =>
      let chunk := fresh "chunk" in
      let s' := fresh "s" in
      let E := fresh "E" in
      destruct (read s n) as [chunk s'] eqn:E;
      apply (read_at _ _ _ _ _ _ H) in E;
      destruct E as [-> E]; clear H
  end.

Lemma slice_length_full (l c : bytes) (a b : nat) :
  slice l a b = c -> List.length c = (b - a)%nat -> (a < b)%nat ->
  (b <= List.length l)%nat.
Proof.
  intros <- H Hab. unfold slice in H.
  rewrite length_firstn, length_skipn in H. lia.
Qed.

Lemma slice_differs (l l' c : bytes) (a b i : nat) :
  slice l a b = c -> (a <= i < b)%nat ->
  nth_error l' i <> nth_error l i -> slice l' a b <> c.
Proof.
  intros Hs Hi Hn Hs'. apply Hn.
  replace i with (a + (i - a))%nat by lia.
  rewrite <- !(nth_error_slice _ a b) by lia. congruence.
Qed.

Lemma slice_app (pre mid post : bytes) (a b : nat) :
  List.length pre = a -> (a + List.length mid = b)%nat ->
  slice (pre ++ mid ++ post) a b = mid.
Proof.
  intros <- <-. unfold slice.
  rewrite skipn_app, skipn_all, Nat.sub_diag. simpl.
  replace (List.length pre + List.length mid - List.length pre)%nat
    with (List.length mid + 0)%nat by lia.
  rewrite firstn_app_2. simpl. apply app_nil_r.
Qed.

Lemma slice_concat (pre : list bytes) (mid : bytes) (post : list bytes) (a b : nat) :
  List.length (List.concat pre) = a -> (a + List.length mid = b)%nat ->
  slice (List.concat (pre ++ mid :: post)) a b = mid.
Proof.
  intros Ha Hb. rewrite concat_app. simpl List.concat. apply slice_app; assumption.
Qed.

Lemma nth_error_set_byte (inp : bytes) (i : nat) (b : byte) :
  (i < List.length inp)%nat -> nth_error (set_byte inp i b) i = Some b.
Proof.
  intros H. unfold set_byte.
  rewrite nth_error_app2 by (rewrite length_firstn; lia).
  rewrite length_firstn, Nat.min_l by lia. rewrite Nat.sub_diag. reflexivity.
Qed.

Lemma in_tag_region_cases (i : nat) :
  in_tag_region i = true ->
  (0 <= i < 5 \/ 5 <= i < 8 \/ 72 <= i < 75 \/ 75 <= i < 77 \/ 77 <= i < 80
   \/ 80 <= i < 83 \/ 244 <= i < 249)%nat.
Proof.
  unfold in_tag_region. intros H.
  repeat match type of H with
         | (_ || _) = true => apply orb_prop in H; destruct H as [H|H]
         | (_ && _) = true => apply andb_prop in H; destruct H as [H H']
         end;
    repeat match goal with
           | H : (_ <? _)%nat = true |- _ => apply Nat.ltb_lt in H
           | H : (_ <=? _)%nat = true |- _ => apply Nat.leb_le in H
           end; lia.
Qed.

Ltac container_field pre :=
  apply (slice_concat pre);
  [ cbn [List.concat]; rewrite ?length_app, ?be_digits_length; reflexivity
  | rewrite ?be_digits_length; reflexivity ].

(** The container laid out for the numbers [x], [y] and [n]. *)
Lemma container_fields (x y n : Z) :
  let out := List.concat [[x30; x81; xf6; x81; x43]; [x00; x41; x04];
                     be_digits 32 x; be_digits 32 y; [x82; x81; xae];
                     [x00; xac]; [x30; x81; xa9]; [x02; x81; xa1];
                     be_digits 161 n; [x02; x03; x01; x00; x01]] in
  List.length out = 249%nat
  /\ slice out 0 5 = [x30; x81; xf6; x81; x43]
  /\ slice out 5 8 = [x00; x41; x04]
  /\ slice out 8 40 = be_digits 32 x
  /\ slice out 40 72 = be_digits 32 y
  /\ slice out 72 75 = [x82; x81; xae]
  /\ slice out 75 77 = [x00; xac]
  /\ slice out 77 80 = [x30; x81; xa9]
  /\ slice out 80 83 = [x02; x81; xa1]
  /\ slice out 83 244 = be_digits 161 n
  /\ slice out 244 249 = [x02; x03; x01; x00; x01].
Proof.
  intros out. subst out.
  split.
  { cbn [List.concat]. rewrite !length_app, !be_digits_length. reflexivity. }
  repeat apply conj.
  - container_field (@nil bytes).
  - container_field [[x30; x81; xf6; x81; x43]].
  - container_field [[x30; x81; xf6; x81; x43]; [x00; x41; x04]].
  - container_field [[x30; x81; xf6; x81; x43]; [x00; x41; x04]; be_digits 32 x].
  - container_field [[x30; x81; xf6; x81; x43]; [x00; x41; x04]; be_digits 32 x; be_digits 32 y].
  - container_field [[x30; x81; xf6; x81; x43]; [x00; x41; x04]; be_digits 32 x; be_digits 32 y;
           [x82; x81; xae]].
  - container_field [[x30; x81; xf6; x81; x43]; [x00; x41; x04]; be_digits 32 x; be_digits 32 y;
           [x82; x81; xae]; [x00; xac]].
  - container_field [[x30; x81; xf6; x81; x43]; [x00; x41; x04]; be_digits 32 x; be_digits 32 y;
           [x82; x81; xae]; [x00; xac]; [x30; x81; xa9]].
  - container_field [[x30; x81; xf6; x81; x43]; [x00; x41; x04]; be_digits 32 x; be_digits 32 y;
           [x82; x81; xae]; [x00; xac]; [x30; x81; xa9]; [x02; x81; xa1]].
  - container_field [[x30; x81; xf6; x81; x43]; [x00; x41; x04]; be_digits 32 x; be_digits 32 y;
           [x82; x81; xae]; [x00; xac]; [x30; x81; xa9]; [x02; x81; xa1];
           be_digits 161 n].
Qed.

Lemma P256_point_fits (x y : Z) :
  P256_on_curve x y = true -> 0 <= x < 256 ^ 32 /\ 0 <= y < 256 ^ 32.
Proof.
  unfold P256_on_curve. intros H.
  repeat (apply andb_prop in H; destruct H as [H ?]).
  assert (Hp : P256_p < 256 ^ 32) by (vm_compute; reflexivity).
  repeat match goal with
         | H : (_ <=? _) = true |- _ => apply Z.leb_le in H
         | H : (_ <? _) = true |- _ => apply Z.ltb_lt in H
         end.
  lia.
Qed.



Lemma RSAPublicNumbers_public_key_65537 (n : Z) :
  65537 < n ->
  RSAPublicNumbers_public_key 65537 n = Ok (RSAPublicKey (mkRSA 65537 n)).
Proof.
  intros H. unfold RSAPublicNumbers_public_key.
  destruct (n <? 3) eqn:E1; [apply Z.ltb_lt in E1; lia|].
  destruct (n <=? 65537) eqn:E2; [apply Z.leb_le in E2; lia|].
  reflexivity.
Qed.

Section Codec.

Variable PEM : Type.
Variable parse_key : PEM -> result Key.
Variable serialize_key : Key -> PEM.
Variable ec_generate_private_key : curve -> Key.
Variable rsa_generate_private_key : Z -> Z -> Key.

Local Abbreviation decode := (decode parse_key serialize_key ec_generate_private_key rsa_generate_private_key).
Local Abbreviation encode := (encode parse_key).

(** [decode] in terms of the offsets of the container. *)
Lemma decode_by_offsets (inp : bytes) :
  decode inp =
    (py_assert (bytes_eqb (slice inp 0 5) [x30; x81; xf6; x81; x43]) ;;;
     py_assert (bytes_eqb (slice inp 72 75) [x82; x81; xae]) ;;;
     py_assert (bytes_eqb (slice inp 75 77) [x00; xac]) ;;;
     py_assert (bytes_eqb (slice inp 77 80) [x30; x81; xa9]) ;;;
     py_assert (bytes_eqb (slice inp 80 83) [x02; x81; xa1]) ;;;
     py_assert (bytes_eqb (slice inp 244 249) [x02; x03; x01; x00; x01]) ;;;
     py_assert (bytes_eqb (slice inp 5 8) [x00; x41; x04]) ;;;
     ec_key <- EllipticCurvePublicNumbers_public_key
                 (int_from_bytes (slice inp 8 40)) (int_from_bytes (slice inp 40 72)) ;;
     rsa_key <- RSAPublicNumbers_public_key 65537 (int_from_bytes (slice inp 83 244)) ;;
     Ok (mkIdentity None (serialize_key ec_key) None (serialize_key rsa_key))).
Proof.
  unfold decode.
  pose proof (at_offset_new inp) as H.
  do 4 step_read.
  pose proof (at_offset_new (firstn 174 (skipn (0 + 5 + 67 + 3) inp))) as H.
  do 5 step_read.
  unfold slice. change (skipn 0 (skipn 3 ?l)) with (skipn 3 l).
  rewrite ?skipn_skipn, ?skipn_of_chunk, ?firstn_firstn.
  reflexivity.
Qed.

(** The seven constants of an accepted container. *)
Lemma decode_accepts_tags (inp : bytes) (id : IDSIdentity PEM) :
  decode inp = Ok id ->
  slice inp 0 5 = [x30; x81; xf6; x81; x43]
  /\ slice inp 5 8 = [x00; x41; x04]
  /\ slice inp 72 75 = [x82; x81; xae]
  /\ slice inp 75 77 = [x00; xac]
  /\ slice inp 77 80 = [x30; x81; xa9]
  /\ slice inp 80 83 = [x02; x81; xa1]
  /\ slice inp 244 249 = [x02; x03; x01; x00; x01].
Proof.
  rewrite decode_by_offsets. intros H.
  repeat match type of H with
         | context [py_assert (bytes_eqb ?a ?b)] =>
             let E := fresh "E" in
             destruct (bytes_eqb a b) eqn:E; [apply bytes_eqb_eq in E|discriminate H];
             cbn [py_assert bind Ok] in H
         end.
  repeat apply conj; assumption.
Qed.

Lemma decode_rejects_tag (inp : bytes) :
  slice inp 0 5 <> [x30; x81; xf6; x81; x43]
  \/ slice inp 5 8 <> [x00; x41; x04]
  \/ slice inp 72 75 <> [x82; x81; xae]
  \/ slice inp 75 77 <> [x00; xac]
  \/ slice inp 77 80 <> [x30; x81; xa9]
  \/ slice inp 80 83 <> [x02; x81; xa1]
  \/ slice inp 244 249 <> [x02; x03; x01; x00; x01] ->
  decode inp = Raise AssertionError.
Proof.
  rewrite decode_by_offsets. intros H.
  repeat match goal with
         | |- context [py_assert (bytes_eqb ?a ?b)] =>
             let E := fresh "E" in
             destruct (bytes_eqb a b) eqn:E; [apply bytes_eqb_eq in E|reflexivity];
             cbn [py_assert bind Ok]
         end.
  exfalso. intuition congruence.
Qed.

Lemma encode_fits (self : IDSIdentity PEM) (c : curve) (x y e n : Z) :
  parse_key (signing_public_key self) = Ok (ECPublicKey (mkEC x y c)) ->
  parse_key (encryption_public_key self) = Ok (RSAPublicKey (mkRSA e n)) ->
  0 <= x < 256 ^ 32 -> 0 <= y < 256 ^ 32 -> 0 <= n < 256 ^ 161 ->
  encode self =
    Ok (List.concat [[x30; x81; xf6; x81; x43]; [x00; x41; x04];
                     be_digits 32 x; be_digits 32 y; [x82; x81; xae];
                     [x00; xac]; [x30; x81; xa9]; [x02; x81; xa1];
                     be_digits 161 n; [x02; x03; x01; x00; x01]]).
Proof.
  intros Hs He Hx Hy Hn. unfold encode.
  rewrite Hs, He. cbn [bind Ok public_numbers_n public_numbers_x public_numbers_y
                       rsa_n ec_x ec_y].
  rewrite (int_to_bytes_ok n 161 Hn), (int_to_bytes_ok x 32 Hx),
    (int_to_bytes_ok y 32 Hy).
  cbn [bind Ok]. unfold getvalue, write, BytesIO_new. cbn [buffer].
  cbn [List.concat app]. rewrite <- ?app_assoc, ?app_nil_r. reflexivity.
Qed.

Lemma encode_overflow (self : IDSIdentity PEM) (c : curve) (x y e n : Z) :
  parse_key (signing_public_key self) = Ok (ECPublicKey (mkEC x y c)) ->
  parse_key (encryption_public_key self) = Ok (RSAPublicKey (mkRSA e n)) ->
  n < 0 \/ 256 ^ 161 <= n \/ x < 0 \/ 256 ^ 32 <= x \/ y < 0 \/ 256 ^ 32 <= y ->
  encode self = Raise OverflowError.
Proof.
  intros Hs He H. unfold encode.
  rewrite Hs, He. cbn [bind Ok public_numbers_n public_numbers_x public_numbers_y
                       rsa_n ec_x ec_y].
  destruct (Z.lt_ge_cases n 0) as [Hn|Hn];
    [rewrite (int_to_bytes_overflow n 161) by (left; exact Hn); reflexivity|].
  destruct (Z.le_gt_cases (256 ^ 161) n) as [Hn'|Hn'];
    [rewrite (int_to_bytes_overflow n 161) by (right; exact Hn'); reflexivity|].
  rewrite (int_to_bytes_ok n 161) by (split; [exact Hn|exact Hn']).
  cbn [bind Ok].
  destruct (Z.lt_ge_cases x 0) as [Hx|Hx];
    [rewrite (int_to_bytes_overflow x 32) by (left; exact Hx); reflexivity|].
  destruct (Z.le_gt_cases (256 ^ 32) x) as [Hx'|Hx'];
    [rewrite (int_to_bytes_overflow x 32) by (right; exact Hx'); reflexivity|].
  rewrite (int_to_bytes_ok x 32) by (split; [exact Hx|exact Hx']).
  cbn [bind Ok].
  rewrite (int_to_bytes_overflow y 32); [reflexivity|].
  change (Z.of_nat 32) with 32. lia.
Qed.

(** [parse_key] reads back what [serialize_key] writes. *)
Hypothesis parse_serialize : forall k : Key, parse_key (serialize_key k) = Ok k.

(** C1 (round trip).  Take an identity whose signing public key is a point
    of P-256 and whose encryption public key is an RSA key with exponent
    65537 (an RSA exponent lies below its modulus) and a modulus of at most
    161 bytes.  Then [encode] returns a container, [decode] accepts it,
    and the identity decoded holds the same two public keys and no
    private key, whether or not the input had private keys. *)
Theorem decode_encode_roundtrip (self : IDSIdentity PEM) (x y n : Z) :
  parse_key (signing_public_key self) = Ok (ECPublicKey (mkEC x y SECP256R1)) ->
  P256_on_curve x y = true ->
  parse_key (encryption_public_key self) = Ok (RSAPublicKey (mkRSA 65537 n)) ->
  65537 < n < 256 ^ 161 ->
  exists (out : bytes) (id' : IDSIdentity PEM),
    encode self = Ok out
    /\ decode out = Ok id'
    /\ parse_key (signing_public_key id') = parse_key (signing_public_key self)
    /\ parse_key (encryption_public_key id') = parse_key (encryption_public_key self)
    /\ signing_key id' = None
    /\ encryption_key id' = None.
Proof.
  intros Hs Hc He Hn.
  destruct (P256_point_fits x y Hc) as [Hx Hy].
  eexists. eexists. split.
  { apply (encode_fits self SECP256R1 x y 65537 n Hs He Hx Hy). lia. }
  rewrite decode_by_offsets.
  destruct (container_fields x y n)
    as (_ & F0 & F1 & F2 & F3 & F4 & F5 & F6 & F7 & F8 & F9).
  cbv zeta in F0, F1, F2, F3, F4, F5, F6, F7, F8, F9.
  rewrite F0, F1, F2, F3, F4, F5, F6, F7, F8, F9.
  rewrite !int_from_be_digits by (assumption || lia).
  unfold EllipticCurvePublicNumbers_public_key. rewrite Hc.
  rewrite (RSAPublicNumbers_public_key_65537 n) by lia.
  split; [reflexivity|]. cbn [signing_public_key encryption_public_key
                              signing_key encryption_key].
  rewrite !parse_serialize, Hs, He. repeat split.
Qed.

(** C3 (tag checks).  Whatever the input, [decode] raises its assertion
    error, and so returns no identity, as soon as one of the seven
    constant fields differs from its constant; and replacing any one byte
    inside these fields of an accepted container by another value makes
    [decode] raise it. *)
Theorem decode_rejects_corrupt_tags (inp : bytes) :
  (slice inp 0 5 <> [x30; x81; xf6; x81; x43]
   \/ slice inp 5 8 <> [x00; x41; x04]
   \/ slice inp 72 75 <> [x82; x81; xae]
   \/ slice inp 75 77 <> [x00; xac]
   \/ slice inp 77 80 <> [x30; x81; xa9]
   \/ slice inp 80 83 <> [x02; x81; xa1]
   \/ slice inp 244 249 <> [x02; x03; x01; x00; x01] ->
   decode inp = Raise AssertionError)
  /\ (forall (id : IDSIdentity PEM) (i : nat) (old b : byte),
        decode inp = Ok id ->
        in_tag_region i = true ->
        nth_error inp i = Some old ->
        b <> old ->
        decode (set_byte inp i b) = Raise AssertionError).
Proof.
  split; [apply decode_rejects_tag|].
  intros id i old b Hd Hi Hold Hb.
  destruct (decode_accepts_tags inp id Hd) as (T0 & T1 & T2 & T3 & T4 & T5 & T6).
  assert (Hlen : (i < List.length inp)%nat)
    by (apply nth_error_Some; congruence).
  assert (Hne : nth_error (set_byte inp i b) i <> nth_error inp i)
    by (rewrite nth_error_set_byte, Hold by exact Hlen; congruence).
  apply decode_rejects_tag.
  destruct (in_tag_region_cases i Hi) as [R|[R|[R|[R|[R|[R|R]]]]]].
  - left. exact (slice_differs _ _ _ _ _ i T0 R Hne).
  - right; left. exact (slice_differs _ _ _ _ _ i T1 R Hne).
  - do 2 right; left. exact (slice_differs _ _ _ _ _ i T2 R Hne).
  - do 3 right; left. exact (slice_differs _ _ _ _ _ i T3 R Hne).
  - do 4 right; left. exact (slice_differs _ _ _ _ _ i T4 R Hne).
  - do 5 right; left. exact (slice_differs _ _ _ _ _ i T5 R Hne).
  - do 6 right. exact (slice_differs _ _ _ _ _ i T6 R Hne).
Qed.


(** C5 (layout).  For an identity of the shape of C1, [encode] returns 249
    bytes: the header at 0, the point-format tag at 5, X and Y as 32-byte
    big-endian integers at 8 and 40, the separator at 72, the RSA prefix
    at 75, the inner and the length tag at 77 and 80, the modulus as a
    161-byte big-endian integer at 83, and at 244 the trailer, whose last
    three bytes are 65537. *)
Theorem encode_layout (self : IDSIdentity PEM) (x y n : Z) :
  parse_key (signing_public_key self) = Ok (ECPublicKey (mkEC x y SECP256R1)) ->
  P256_on_curve x y = true ->
  parse_key (encryption_public_key self) = Ok (RSAPublicKey (mkRSA 65537 n)) ->
  65537 < n < 256 ^ 161 ->
  exists out : bytes,
    encode self = Ok out
    /\ List.length out = 249%nat
    /\ slice out 0 5 = [x30; x81; xf6; x81; x43]
    /\ slice out 5 8 = [x00; x41; x04]
    /\ (List.length (slice out 8 40) = 32%nat /\ int_from_bytes (slice out 8 40) = x)
    /\ (List.length (slice out 40 72) = 32%nat /\ int_from_bytes (slice out 40 72) = y)
    /\ slice out 72 75 = [x82; x81; xae]
    /\ slice out 75 77 = [x00; xac]
    /\ slice out 77 80 = [x30; x81; xa9]
    /\ slice out 80 83 = [x02; x81; xa1]
    /\ (List.length (slice out 83 244) = 161%nat
        /\ int_from_bytes (slice out 83 244) = n)
    /\ slice out 244 249 = [x02; x03; x01; x00; x01]
    /\ int_from_bytes (slice out 246 249) = 65537.
Proof.
  intros Hs Hc He Hn.
  destruct (P256_point_fits x y Hc) as [Hx Hy].
  eexists. split.
  { apply (encode_fits self SECP256R1 x y 65537 n Hs He Hx Hy). lia. }
  destruct (container_fields x y n)
    as (F & F0 & F1 & F2 & F3 & F4 & F5 & F6 & F7 & F8 & F9).
  cbv zeta in F, F0, F1, F2, F3, F4, F5, F6, F7, F8, F9.
  rewrite F0, F1, F2, F3, F4, F5, F6, F7, F8, F9, !be_digits_length.
  rewrite !int_from_be_digits by (assumption || lia).
  repeat apply conj; try reflexivity; assumption.
Qed.

(** C2, as the code has it.  [encode] raises [OverflowError], and returns
    no bytes, whenever the RSA modulus does not fit in 161 bytes or a
    coordinate of the signing key does not fit in 32 bytes; when the three
    numbers fit, it returns a container of 249 bytes whose trailer is the
    constant for 65537, whatever the curve of the signing key and the
    exponent of the RSA key are. *)
Theorem encode_fails_on_overflow_only (self : IDSIdentity PEM) (c : curve)
    (x y e n : Z) :
  parse_key (signing_public_key self) = Ok (ECPublicKey (mkEC x y c)) ->
  parse_key (encryption_public_key self) = Ok (RSAPublicKey (mkRSA e n)) ->
  (n < 0 \/ 256 ^ 161 <= n \/ x < 0 \/ 256 ^ 32 <= x \/ y < 0 \/ 256 ^ 32 <= y ->
   encode self = Raise OverflowError)
  /\ (0 <= n < 256 ^ 161 /\ 0 <= x < 256 ^ 32 /\ 0 <= y < 256 ^ 32 ->
      exists out : bytes,
        encode self = Ok out
        /\ List.length out = 249%nat
        /\ slice out 244 249 = [x02; x03; x01; x00; x01]).
Proof.
  intros Hs He. split.
  - apply (encode_overflow self c x y e n Hs He).
  - intros (Hn & Hx & Hy). eexists. split.
    + apply (encode_fits self c x y e n Hs He Hx Hy Hn).
    + destruct (container_fields x y n)
        as (F & _ & _ & _ & _ & _ & _ & _ & _ & _ & F9).
      split; assumption.
Qed.

End Codec.

(** ** The answer of the server *)

Lemma SF_eq_Z_unique (f : spec_float) (a b : Z) :
  SF_eq_Z f a = true -> SF_eq_Z f b = true -> a = b.
Proof.
  destruct f as [sg| | |sg m e]; unfold SF_eq_Z; try discriminate.
  - intros H1 H2. apply Z.eqb_eq in H1, H2. congruence.
  - cbv zeta. set (v := if sg then Z.neg m else Z.pos m).
    destruct (0 <=? e) eqn:Ee; intros H1 H2; apply Z.eqb_eq in H1, H2.
    + congruence.
    + apply Z.leb_gt in Ee.
      assert (0 < 2 ^ (- e)) by (apply Z.pow_pos_nonneg; lia). nia.
Qed.

Lemma py_eq_int_unique (s : pyval) (a b : Z) :
  py_eq_int s a = true -> py_eq_int s b = true -> a = b.
Proof.
  destruct s as [ |n|c|f| | | | | | ]; unfold py_eq_int; try discriminate.
  - intros H1 H2. apply Z.eqb_eq in H1, H2. congruence.
  - intros H1 H2. apply Z.eqb_eq in H1, H2. congruence.
  - apply SF_eq_Z_unique.
Qed.

Lemma py_eq_int_zero_not_expired (s : pyval) :
  py_eq_int s 0 = true -> py_eq_int s 6004 = false.
Proof.
  intros H. destruct (py_eq_int s 6004) eqn:E; [|reflexivity].
  discriminate (py_eq_int_unique s 0 6004 H E).
Qed.

Lemma py_getitem_error (v : pyval) (key : string) (e : PyErr) :
  py_getitem v key = Raise e -> is_lookup_error e = true.
Proof.
  destruct v; simpl; try (intros H; injection H as <-; reflexivity).
  destruct (dict_get d key); [discriminate|].
  intros H; injection H as <-; reflexivity.
Qed.

Lemma py_index_error (v : pyval) (i : nat) (e : PyErr) :
  py_index v i = Raise e -> is_lookup_error e = true.
Proof.
  destruct v; simpl; try (intros H; injection H as <-; reflexivity).
  - destruct (String.get i s); [discriminate|].
    intros H; injection H as <-; reflexivity.
  - destruct (nth_error b i); [discriminate|].
    intros H; injection H as <-; reflexivity.
  - destruct (nth_error l i); [discriminate|].
    intros H; injection H as <-; reflexivity.
  - destruct (dict_get_int d (Z.of_nat i)); [discriminate|].
    intros H; injection H as <-; reflexivity.
Qed.

Lemma cert_at_error (r : pyval) (i : nat) (e : PyErr) :
  cert_at r i = Raise e -> is_lookup_error e = true.
Proof.
  unfold cert_at.
  destruct (py_getitem r "services") as [e1|services] eqn:E1;
    [intros H; injection H as <-; exact (py_getitem_error _ _ _ E1)|].
  cbn [bind].
  destruct (py_index services i) as [e2|service] eqn:E2;
    [intros H; injection H as <-; exact (py_index_error _ _ _ E2)|].
  cbn [bind].
  destruct (py_getitem service "users") as [e3|users] eqn:E3;
    [intros H; injection H as <-; exact (py_getitem_error _ _ _ E3)|].
  cbn [bind].
  destruct (py_index users 0) as [e4|user] eqn:E4;
    [intros H; injection H as <-; exact (py_index_error _ _ _ E4)|].
  cbn [bind]. apply py_getitem_error.
Qed.

Lemma lookup_error_not_raised_by_register (e : PyErr) :
  is_lookup_error e = true -> forall msg detail, e <> PyException msg detail.
Proof.
  intros H msg detail ->. discriminate H.
Qed.

(** What a certificate found at index [i] says about the answer. *)
Lemma cert_at_ok (d : list (pyval * pyval)) (i : nat) (c : pyval) :
  cert_at (PDict d) i = Ok c ->
  exists services sd users ud,
    dict_get d "services" = Some services
    /\ py_index services i = Ok (PDict sd)
    /\ dict_get sd "users" = Some users
    /\ py_index users 0 = Ok (PDict ud)
    /\ dict_get ud "cert" = Some c.
Proof.
  unfold cert_at. cbn [py_getitem].
  destruct (dict_get d "services") as [services|]; [|discriminate].
  cbn [bind Ok].
  destruct (py_index services i) as [e2|service] eqn:E2; [discriminate|].
  cbn [bind].
  destruct service as [ | | | | | | | | |sd]; try discriminate.
  cbn [py_getitem].
  destruct (dict_get sd "users") as [users|] eqn:E3; [|discriminate].
  cbn [bind Ok].
  destruct (py_index users 0) as [e4|user] eqn:E4; [discriminate|].
  cbn [bind].
  destruct user as [ | | | | | | | | |ud]; try discriminate.
  cbn [py_getitem].
  destruct (dict_get ud "cert") as [c'|] eqn:E5; [|discriminate].
  intros H. injection H as <-.
  exists services, sd, users, ud. repeat split; assumption.
Qed.

(** Only a list and a dictionary hold a dictionary at an index. *)
Lemma py_index_dict (v : pyval) (i : nat) (x : list (pyval * pyval)) :
  py_index v i = Ok (PDict x) ->
  (exists l, v = PList l /\ nth_error l i = Some (PDict x))
  \/ (exists m, v = PDict m /\ dict_get_int m (Z.of_nat i) = Some (PDict x)).
Proof.
  destruct v as [ | | | |s|b| | |l|m]; simpl; try discriminate.
  - destruct (String.get i s); discriminate.
  - destruct (nth_error b i); discriminate.
  - destruct (nth_error l i) as [y|] eqn:E; [|discriminate].
    intros H. injection H as ->. left. exists l. split; [reflexivity|exact E].
  - destruct (dict_get_int m (Z.of_nat i)) as [y|] eqn:E; [|discriminate].
    intros H. injection H as ->. right. exists m. split; [reflexivity|exact E].
Qed.

(** [validate_response] on a dictionary, check by check. *)
Lemma validate_response_dict (d : list (pyval * pyval)) :
  validate_response (PDict d) =
    let rest :=
      match dict_get d "services" with
      | None => Raise (PyException "No services in response: " (Some (PDict d)))
      | Some services =>
          service0 <- py_index services 0 ;;
          has <- py_contains "users" service0 ;;
          if negb has
          then Raise (PyException "No users in response: " (Some (PDict d)))
          else
            users <- py_getitem service0 "users" ;;
            user0 <- py_index users 0 ;;
            has <- py_contains "cert" user0 ;;
            if negb has
            then Raise (PyException "No cert in response: " (Some (PDict d)))
            else Ok tt
      end in
    match dict_get d "status" with
    | Some s =>
        if py_eq_int s 6004
        then Raise (PyException "Validation data expired!" None)
        else if negb (py_eq_int s 0)
             then Raise (PyException "Failed to register: " (Some (PDict d)))
             else rest
    | None => rest
    end.
Proof.
  unfold validate_response, py_and. cbn [py_contains py_getitem].
  destruct (dict_get d "status") as [s|]; cbn [is_some bind Ok].
  - destruct (py_eq_int s 6004); [reflexivity|].
    destruct (py_eq_int s 0); cbn [negb]; [|reflexivity].
    destruct (dict_get d "services"); reflexivity.
  - destruct (dict_get d "services"); reflexivity.
Qed.

Lemma validate_response_passed_status (d : list (pyval * pyval)) :
  status_passes d = true ->
  validate_response (PDict d) =
    match dict_get d "services" with
    | None => Raise (PyException "No services in response: " (Some (PDict d)))
    | Some services =>
        service0 <- py_index services 0 ;;
        has <- py_contains "users" service0 ;;
        if negb has
        then Raise (PyException "No users in response: " (Some (PDict d)))
        else
          users <- py_getitem service0 "users" ;;
          user0 <- py_index users 0 ;;
          has <- py_contains "cert" user0 ;;
          if negb has
          then Raise (PyException "No cert in response: " (Some (PDict d)))
          else Ok tt
    end.
Proof.
  unfold status_passes. intros H. rewrite validate_response_dict. cbv zeta.
  destruct (dict_get d "status") as [s|]; [|reflexivity].
  rewrite (py_eq_int_zero_not_expired s H), H. reflexivity.
Qed.

Lemma validate_response_first_cert (d : list (pyval * pyval)) (c0 : pyval) :
  status_passes d = true -> cert_at (PDict d) 0 = Ok c0 ->
  validate_response (PDict d) = Ok tt.
Proof.
  intros Hs Hc. rewrite (validate_response_passed_status d Hs).
  destruct (cert_at_ok d 0 c0 Hc) as (services & sd & users & ud & H1 & H2 & H3 & H4 & H5).
  rewrite H1, H2. cbn [bind Ok py_contains py_getitem].
  rewrite H3. cbn [is_some negb bind Ok]. rewrite H4.
  cbn [bind Ok py_contains]. rewrite H5. reflexivity.
Qed.

Section Registration.

Variable armour_cert : pyval -> string.

Local Abbreviation extract_certs := (extract_certs armour_cert).
Local Abbreviation process_response := (process_response armour_cert).

(** C6 (order of the checks).  On an answer that is a dictionary,
    [register] raises, in this order of precedence: "Validation data
    expired!" when there is a status equal to 6004; "Failed to register"
    with the whole answer when there is a status that is not 0; "No
    services" with the answer when there is no services entry; "No users"
    when the first service has no users entry; "No cert" when the first
    user has no cert entry; otherwise the checks pass and the certificates
    are extracted. *)
Theorem validate_response_order (d : list (pyval * pyval)) :
  let r := PDict d in
  (forall s, dict_get d "status" = Some s -> py_eq_int s 6004 = true ->
     process_response r = Raise (PyException "Validation data expired!" None))
  /\ (forall s, dict_get d "status" = Some s ->
        py_eq_int s 6004 = false -> py_eq_int s 0 = false ->
        process_response r = Raise (PyException "Failed to register: " (Some r)))
  /\ (status_passes d = true -> dict_get d "services" = None ->
        process_response r = Raise (PyException "No services in response: " (Some r)))
  /\ (forall sd rest,
        status_passes d = true ->
        dict_get d "services" = Some (PList (PDict sd :: rest)) ->
        dict_get sd "users" = None ->
        process_response r = Raise (PyException "No users in response: " (Some r)))
  /\ (forall sd rest ud urest,
        status_passes d = true ->
        dict_get d "services" = Some (PList (PDict sd :: rest)) ->
        dict_get sd "users" = Some (PList (PDict ud :: urest)) ->
        dict_get ud "cert" = None ->
        process_response r = Raise (PyException "No cert in response: " (Some r)))
  /\ (forall sd rest ud urest c,
        status_passes d = true ->
        dict_get d "services" = Some (PList (PDict sd :: rest)) ->
        dict_get sd "users" = Some (PList (PDict ud :: urest)) ->
        dict_get ud "cert" = Some c ->
        validate_response r = Ok tt /\ process_response r = extract_certs r).
Proof.
  intros r. subst r. unfold process_response.
  repeat apply conj.
  - intros s Hs H. rewrite validate_response_dict, Hs, H. reflexivity.
  - intros s Hs H H0. rewrite validate_response_dict, Hs, H, H0. reflexivity.
  - intros Hp Hn. rewrite (validate_response_passed_status d Hp), Hn. reflexivity.
  - intros sd rest Hp Hv Hu. rewrite (validate_response_passed_status d Hp), Hv.
    cbn [py_index nth_error bind Ok py_contains]. rewrite Hu. reflexivity.
  - intros sd rest ud urest Hp Hv Hu Hc.
    rewrite (validate_response_passed_status d Hp), Hv.
    cbn [py_index nth_error bind Ok py_contains py_getitem]. rewrite Hu.
    cbn [is_some negb py_index nth_error bind Ok py_contains]. rewrite Hc.
    reflexivity.
  - intros sd rest ud urest c Hp Hv Hu Hc.
    rewrite (validate_response_passed_status d Hp), Hv.
    cbn [py_index nth_error bind Ok py_contains py_getitem]. rewrite Hu.
    cbn [is_some negb py_index nth_error bind Ok py_contains]. rewrite Hc.
    split; reflexivity.
Qed.



(** C10 (only the first service is checked).  Let the answer be a
    dictionary that passes the status check and has a certificate under
    services[0].users[0].  If it has fewer than four services, or if one of
    the services at index 1, 2 or 3 has no users entry or its first user has
    no cert entry, then the checks of [register] pass and the extraction
    raises a [KeyError], [IndexError] or [TypeError], none of the exceptions
    [register] raises itself. *)
Theorem extraction_fails_untyped (d : list (pyval * pyval)) (c0 : pyval)
    (services : list pyval) :
  let r := PDict d in
  status_passes d = true ->
  cert_at r 0 = Ok c0 ->
  dict_get d "services" = Some (PList services) ->
  ((List.length services < 4)%nat
   \/ exists i sd,
        (1 <= i <= 3)%nat
        /\ nth_error services i = Some (PDict sd)
        /\ (dict_get sd "users" = None
            \/ exists ud urest,
                 dict_get sd "users" = Some (PList (PDict ud :: urest))
                 /\ dict_get ud "cert" = None)) ->
  validate_response r = Ok tt
  /\ exists e,
       process_response r = Raise e
       /\ is_lookup_error e = true
       /\ (forall msg detail, e <> PyException msg detail).
Proof.
  intros r Hs H0 Hd Hbad. subst r.
  pose proof (validate_response_first_cert d c0 Hs H0) as Hv.
  split; [exact Hv|].
  assert (Hfail : exists i e, (1 <= i <= 3)%nat /\ cert_at (PDict d) i = Raise e).
  { destruct Hbad as [Hlen|(i & sd & Hi & Hn & Hu)].
    - exists 3%nat, IndexError. split; [lia|].
      unfold cert_at. cbn [py_getitem]. rewrite Hd. cbn [bind Ok py_index].
      assert (Hnone : nth_error services 3 = None) by (apply nth_error_None; lia).
      rewrite Hnone. reflexivity.
    - destruct Hu as [Hu|(ud & urest & Hu & Hc)].
      + exists i, (KeyError (PStr "users")). split; [exact Hi|].
        unfold cert_at. cbn [py_getitem]. rewrite Hd. cbn [bind Ok py_index].
        rewrite Hn. cbn [bind Ok py_getitem]. rewrite Hu. reflexivity.
      + exists i, (KeyError (PStr "cert")). split; [exact Hi|].
        unfold cert_at. cbn [py_getitem]. rewrite Hd. cbn [bind Ok py_index].
        rewrite Hn. cbn [bind Ok py_getitem]. rewrite Hu.
        cbn [bind Ok py_index nth_error py_getitem]. rewrite Hc. reflexivity. }
  assert (Hex : exists e, extract_certs (PDict d) = Raise e /\ is_lookup_error e = true).
  { unfold extract_certs. rewrite H0. cbn [bind Ok].
    destruct Hfail as (i & e & Hi & He).
    destruct (cert_at (PDict d) 1) as [e1|c1] eqn:E1;
      [exists e1; split; [reflexivity|exact (cert_at_error _ _ _ E1)]|].
    cbn [bind].
    destruct (cert_at (PDict d) 2) as [e2|c2] eqn:E2;
      [exists e2; split; [reflexivity|exact (cert_at_error _ _ _ E2)]|].
    cbn [bind].
    destruct (cert_at (PDict d) 3) as [e3|c3] eqn:E3;
      [exists e3; split; [reflexivity|exact (cert_at_error _ _ _ E3)]|].
    exfalso.
    assert (Hi' : i = 1%nat \/ i = 2%nat \/ i = 3%nat) by lia.
    destruct Hi' as [ Hi' | [ Hi' | Hi' ] ]; subst i; unfold Raise in He; congruence. }
  destruct Hex as (e & He & Hl). exists e.
  unfold process_response. rewrite Hv. cbn [bind].
  repeat split; [exact He|exact Hl|].
  apply lookup_error_not_raised_by_register. exact Hl.
Qed.

End Registration.

(** ** The request *)

Section Request.

Variable PEM : Type.
Variable parse_key : PEM -> result Key.
Variable uuid4_hex_upper : string.

Local Abbreviation build_body := (build_body parse_key uuid4_hex_upper).

Lemma build_body_ok (handles : list pyval) (user_id : pyval)
    (identity : IDSIdentity PEM) (validation_data : pyval) (key vd : bytes) :
  encode parse_key identity = Ok key ->
  b64decode validation_data = Ok vd ->
  build_body handles user_id identity validation_data =
    Ok (PDict
      [(PStr "device-name", PStr "pypush");
       (PStr "hardware-version", PStr "MacBookPro18,3");
       (PStr "language", PStr "en-US");
       (PStr "os-version", PStr "macOS,13.2.1,22D68");
       (PStr "software-version", PStr "22D68");
       (PStr "private-device-data", PDict [(PStr "u", PStr uuid4_hex_upper)]);
       (PStr "services", PList
          [service_madrid key (make_uris handles) user_id;
           service_facetime_multi (make_uris handles) user_id;
           service_ess key (make_uris handles) user_id;
           service_multiplex1 key (make_uris handles) user_id]);
       (PStr "validation-data", PBytes vd)]).
Proof.
  intros He Hv. unfold build_body. rewrite He, Hv. reflexivity.
Qed.

(** C8, as the code has it.  In the request built, the user entry of each of
    the four services lists under uris one [{"uri": handle}] per handle
    given, in their order, and holds the user id given under user-id; the
    validation-data entry is the base64 decoding of the validation data
    given. *)
Theorem build_body_substitutes (handles : list pyval) (user_id : pyval)
    (identity : IDSIdentity PEM) (validation_data : pyval) (key vd : bytes) :
  encode parse_key identity = Ok key ->
  b64decode validation_data = Ok vd ->
  exists body,
    build_body handles user_id identity validation_data = Ok body
    /\ (forall i, (i < 4)%nat ->
          exists user,
            request_user body i = Ok user
            /\ py_getitem user "uris"
                = Ok (PList (map (fun handle => PDict [(PStr "uri", handle)]) handles))
            /\ py_getitem user "user-id" = Ok user_id)
    /\ py_getitem body "validation-data" = Ok (PBytes vd).
Proof.
  intros He Hv. eexists. split; [exact (build_body_ok _ _ _ _ _ _ He Hv)|].
  split; [|reflexivity].
  intros i Hi.
  destruct i as [|[|[|[|i]]]]; [| | | |lia];
    eexists; (split; [reflexivity|split; reflexivity]).
Qed.

(** C9, as the code has it.  In the request built, the client data of the
    services at index 0, 2 and 3 (com.apple.madrid, com.apple.ess and
    com.apple.private.alloy.multiplex1) hold [encode] of the identity given
    under public-message-identity-key; the client data of the service at
    index 1 (com.apple.private.alloy.facetime.multi) hold a constant
    container under that key, whatever the identity. *)
Theorem build_body_identity_keys (handles : list pyval) (user_id : pyval)
    (identity : IDSIdentity PEM) (validation_data : pyval) (key vd : bytes) :
  encode parse_key identity = Ok key ->
  b64decode validation_data = Ok vd ->
  exists body,
    build_body handles user_id identity validation_data = Ok body
    /\ request_identity_key body 0 = Ok (PBytes key)
    /\ request_identity_key body 2 = Ok (PBytes key)
    /\ request_identity_key body 3 = Ok (PBytes key)
    /\ request_identity_key body 1 = Ok (PBytes facetime_identity_key).
Proof.
  intros He Hv. eexists. split; [exact (build_body_ok _ _ _ _ _ _ He Hv)|].
  repeat split.
Qed.

End Request.

(** ** The statements at concrete inputs *)

(** C1 at [sample_identity], which has both private keys. *)
Lemma decode_encode_roundtrip_witness :
  exists (out : bytes) (id' : IDSIdentity Key),
    encode plain_parse_key sample_identity = Ok out
    /\ plain_decode out = Ok id'
    /\ plain_parse_key (signing_public_key id')
       = plain_parse_key (signing_public_key sample_identity)
    /\ plain_parse_key (encryption_public_key id')
       = plain_parse_key (encryption_public_key sample_identity)
    /\ signing_key id' = None
    /\ encryption_key id' = None.
Proof.
  apply (decode_encode_roundtrip Key plain_parse_key plain_serialize_key
           fixed_ec_generate_private_key fixed_rsa_generate_private_key
           (fun k => eq_refl) sample_identity
           (ec_x P256_G) (ec_y P256_G) sample_modulus).
  - reflexivity.
  - vm_compute. reflexivity.
  - reflexivity.
  - split; vm_compute; reflexivity.
Defined.

(** C2: an identity with the RSA exponent 3 and an identity signing on
    secp256k1 are encoded all the same, the trailer saying 65537. *)
Lemma encode_accepts_other_exponent_and_curve :
  plain_parse_key (encryption_public_key identity_e3)
    = Ok (RSAPublicKey (mkRSA 3 sample_modulus))
  /\ (exists out, encode plain_parse_key identity_e3 = Ok out
                 /\ slice out 244 249 = [x02; x03; x01; x00; x01])
  /\ plain_parse_key (signing_public_key identity_k1) = Ok (ECPublicKey SECP256K1_G)
  /\ (exists out, encode plain_parse_key identity_k1 = Ok out
                 /\ slice out 244 249 = [x02; x03; x01; x00; x01]).
Proof.
  split; [reflexivity|]. split.
  - eexists. split; vm_compute; reflexivity.
  - split; [reflexivity|]. eexists. split; vm_compute; reflexivity.
Qed.

Lemma encode_fails_on_overflow_only_witness :
  exists out : bytes,
    encode plain_parse_key identity_e3 = Ok out
    /\ List.length out = 249%nat
    /\ slice out 244 249 = [x02; x03; x01; x00; x01].
Proof.
  apply (encode_fails_on_overflow_only Key plain_parse_key identity_e3 SECP256R1
           (ec_x P256_G) (ec_y P256_G) 3 sample_modulus eq_refl eq_refl).
  repeat split; vm_compute; congruence.
Defined.

(** C3: the first byte of the header of [facetime_identity_key] changed. *)
Lemma decode_rejects_corrupt_tags_witness :
  plain_decode (set_byte facetime_identity_key 0 x31) = Raise AssertionError.
Proof.
  eapply (proj2 (decode_rejects_corrupt_tags Key plain_parse_key plain_serialize_key
                   fixed_ec_generate_private_key fixed_rsa_generate_private_key
                   facetime_identity_key) _ 0%nat x30 x31).
  - vm_compute. reflexivity.
  - reflexivity.
  - reflexivity.
  - discriminate.
Defined.


(** C5 at [sample_identity]. *)
Lemma encode_layout_witness :
  exists out : bytes,
    encode plain_parse_key sample_identity = Ok out
    /\ List.length out = 249%nat
    /\ slice out 0 5 = [x30; x81; xf6; x81; x43]
    /\ slice out 5 8 = [x00; x41; x04]
    /\ (List.length (slice out 8 40) = 32%nat
        /\ int_from_bytes (slice out 8 40) = ec_x P256_G)
    /\ (List.length (slice out 40 72) = 32%nat
        /\ int_from_bytes (slice out 40 72) = ec_y P256_G)
    /\ slice out 72 75 = [x82; x81; xae]
    /\ slice out 75 77 = [x00; xac]
    /\ slice out 77 80 = [x30; x81; xa9]
    /\ slice out 80 83 = [x02; x81; xa1]
    /\ (List.length (slice out 83 244) = 161%nat
        /\ int_from_bytes (slice out 83 244) = sample_modulus)
    /\ slice out 244 249 = [x02; x03; x01; x00; x01]
    /\ int_from_bytes (slice out 246 249) = 65537.
Proof.
  apply (encode_layout Key plain_parse_key sample_identity
           (ec_x P256_G) (ec_y P256_G) sample_modulus).
  - reflexivity.
  - vm_compute. reflexivity.
  - reflexivity.
  - split; vm_compute; reflexivity.
Defined.

(** C6 at the four answers of the specification's examples. *)
Lemma validate_response_order_witness :
  process_response sample_armour_cert (PDict [(PStr "status", PInt 6004)])
    = Raise (PyException "Validation data expired!" None)
  /\ process_response sample_armour_cert (PDict [(PStr "status", PInt 1)])
     = Raise (PyException "Failed to register: " (Some (PDict [(PStr "status", PInt 1)])))
  /\ process_response sample_armour_cert
       (PDict [(PStr "status", PInt 0); (PStr "services", PList [PDict []])])
     = Raise (PyException "No users in response: "
                (Some (PDict [(PStr "status", PInt 0); (PStr "services", PList [PDict []])])))
  /\ process_response sample_armour_cert
       (PDict [(PStr "status", PInt 0);
               (PStr "services", PList [PDict [(PStr "users", PList [PDict []])]])])
     = Raise (PyException "No cert in response: "
                (Some (PDict [(PStr "status", PInt 0);
                              (PStr "services", PList [PDict [(PStr "users", PList [PDict []])]])]))).
Proof.
  split; [|split; [|split]].
  - apply (proj1 (validate_response_order sample_armour_cert
                    [(PStr "status", PInt 6004)]) (PInt 6004)); reflexivity.
  - apply (proj1 (proj2 (validate_response_order sample_armour_cert
                           [(PStr "status", PInt 1)])) (PInt 1)); reflexivity.
  - apply (proj1 (proj2 (proj2 (proj2 (validate_response_order sample_armour_cert
             [(PStr "status", PInt 0); (PStr "services", PList [PDict []])])))) [] []);
      reflexivity.
  - apply (proj1 (proj2 (proj2 (proj2 (proj2
             (validate_response_order sample_armour_cert
                [(PStr "status", PInt 0);
                 (PStr "services", PList [PDict [(PStr "users", PList [PDict []])]])])))))
             [(PStr "users", PList [PDict []])] [] [] []); reflexivity.
Defined.


(** C8: the validation data "AAAA" arrive as three zero bytes. *)
Lemma validation_data_is_decoded :
  exists body,
    build_body plain_parse_key "0123456789ABCDEF0123456789ABCDEF"
      [PStr "mailto:user@example.com"] (PStr "D:100") sample_identity (PStr "AAAA")
      = Ok body
    /\ py_getitem body "validation-data" = Ok (PBytes [x00; x00; x00])
    /\ py_getitem body "validation-data" <> Ok (PStr "AAAA").
Proof.
  eexists. split; [vm_compute; reflexivity|].
  split; [reflexivity|]. vm_compute. discriminate.
Qed.

Lemma build_body_substitutes_witness :
  exists body,
    build_body plain_parse_key "0123456789ABCDEF0123456789ABCDEF"
      [PStr "mailto:user@example.com"; PStr "tel:+15555550100"] (PStr "D:100")
      sample_identity (PStr "AAAA") = Ok body
    /\ (forall i, (i < 4)%nat ->
          exists user,
            request_user body i = Ok user
            /\ py_getitem user "uris"
                = Ok (PList (map (fun handle => PDict [(PStr "uri", handle)])
                               [PStr "mailto:user@example.com";
                                PStr "tel:+15555550100"]))
            /\ py_getitem user "user-id" = Ok (PStr "D:100"))
    /\ py_getitem body "validation-data" = Ok (PBytes [x00; x00; x00]).
Proof.
  destruct (encode plain_parse_key sample_identity) as [e|key] eqn:E;
    [vm_compute in E; discriminate E|].
  apply (build_body_substitutes Key plain_parse_key
           "0123456789ABCDEF0123456789ABCDEF"
           [PStr "mailto:user@example.com"; PStr "tel:+15555550100"] (PStr "D:100")
           sample_identity (PStr "AAAA") key [x00; x00; x00] E).
  reflexivity.
Defined.

(** C9: the request for [sample_identity] carries, for
    com.apple.private.alloy.facetime.multi, a container that is not the
    encoding of [sample_identity]. *)
Lemma facetime_key_is_not_the_callers :
  exists body key,
    build_body plain_parse_key "0123456789ABCDEF0123456789ABCDEF"
      [PStr "mailto:user@example.com"] (PStr "D:100") sample_identity (PStr "AAAA")
      = Ok body
    /\ encode plain_parse_key sample_identity = Ok key
    /\ request_identity_key body 1 = Ok (PBytes facetime_identity_key)
    /\ request_identity_key body 1 <> Ok (PBytes key).
Proof.
  eexists. eexists. split; [vm_compute; reflexivity|].
  split; [vm_compute; reflexivity|]. split; [reflexivity|].
  intros H. vm_compute in H. discriminate H.
Qed.

Lemma build_body_identity_keys_witness :
  exists body,
    build_body plain_parse_key "0123456789ABCDEF0123456789ABCDEF"
      [PStr "mailto:user@example.com"] (PStr "D:100") identity_e3 (PStr "AAAA")
      = Ok body
    /\ request_identity_key body 0 = bind (encode plain_parse_key identity_e3)
                                       (fun key => Ok (PBytes key))
    /\ request_identity_key body 1 = Ok (PBytes facetime_identity_key).
Proof.
  destruct (encode plain_parse_key identity_e3) as [e|key] eqn:E;
    [vm_compute in E; discriminate E|].
  destruct (build_body_identity_keys Key plain_parse_key
              "0123456789ABCDEF0123456789ABCDEF"
              [PStr "mailto:user@example.com"] (PStr "D:100")
              identity_e3 (PStr "AAAA") key [x00; x00; x00] E eq_refl)
    as (body & Hb & H0 & _ & _ & H1).
  exists body. split; [exact Hb|]. split; [exact H0|exact H1].
Defined.

(** C10: a valid answer with one service only. *)
Lemma extraction_fails_untyped_witness :
  exists e,
    process_response sample_armour_cert
      (PDict [(PStr "status", PInt 0);
              (PStr "services", PList [PDict [(PStr "users", PList [PDict [(PStr "cert", PBytes [x01])]])]])])
      = Raise e
    /\ is_lookup_error e = true
    /\ (forall msg detail, e <> PyException msg detail).
Proof.
  apply (extraction_fails_untyped sample_armour_cert
           [(PStr "status", PInt 0);
            (PStr "services", PList [PDict [(PStr "users", PList [PDict [(PStr "cert", PBytes [x01])]])]])]
           (PBytes [x01])
           [PDict [(PStr "users", PList [PDict [(PStr "cert", PBytes [x01])]])]]).
  - reflexivity.
  - reflexivity.
  - reflexivity.
  - left. simpl. lia.
Defined.

(** * Further properties of the container *)





Lemma nth_error_slice_full (l : bytes) (a b k : nat) :
  nth_error (slice l a b) k
  = if (k <? b - a)%nat then nth_error l (a + k) else None.
Proof.
  unfold slice. rewrite nth_error_firstn.
  destruct (k <? b - a)%nat; [apply nth_error_skipn|reflexivity].
Qed.

Lemma nth_error_set_byte_other (l : bytes) (i k : nat) (x : byte) :
  k <> i -> (k < List.length l)%nat ->
  nth_error (set_byte l i x) k = nth_error l k.
Proof.
  intros Hk Hl. unfold set_byte.
  destruct (Nat.lt_ge_cases k i) as [Hlt|Hge].
  - rewrite nth_error_app1 by (rewrite length_firstn; lia).
    rewrite nth_error_firstn.
    destruct (Nat.ltb_spec k i); [reflexivity|lia].
  - rewrite nth_error_app2 by (rewrite length_firstn; lia).
    rewrite length_firstn, Nat.min_l by lia.
    replace (k - i)%nat with (S (k - S i)) by lia.
    cbn [nth_error]. rewrite nth_error_skipn. f_equal. lia.
Qed.

Lemma slice_set_byte_outside (l : bytes) (a b i : nat) (x : byte) :
  (i < a \/ b <= i)%nat -> (b <= List.length l)%nat ->
  slice (set_byte l i x) a b = slice l a b.
Proof.
  intros Hi Hb. apply nth_error_ext. intros k.
  rewrite !nth_error_slice_full.
  destruct (Nat.ltb_spec k (b - a)); [|reflexivity].
  apply nth_error_set_byte_other; lia.
Qed.

Lemma int_to_bytes_inv (n : Z) (len : nat) (b : bytes) :
  int_to_bytes n len = Ok b -> 0 <= n < 256 ^ Z.of_nat len /\ b = be_digits len n.
Proof.
  unfold int_to_bytes.
  destruct (n <? 0) eqn:E0; [discriminate|].
  destruct (256 ^ Z.of_nat len <=? n) eqn:E1; [discriminate|].
  intros H. injection H as <-.
  apply Z.ltb_ge in E0. apply Z.leb_gt in E1. repeat split; assumption.
Qed.

Lemma well_tagged_length (inp : bytes) :
  well_tagged inp -> (249 <= List.length inp)%nat.
Proof.
  intros (_ & _ & _ & _ & _ & _ & T).
  apply (slice_length_full inp _ 244 249 T); [reflexivity|lia].
Qed.


Lemma slice_firstn (l : bytes) (a b n : nat) :
  (b <= n)%nat -> slice (firstn n l) a b = slice l a b.
Proof.
  intros H. unfold slice. rewrite skipn_firstn_comm, firstn_firstn.
  f_equal. lia.
Qed.


Section Container.

Variable PEM : Type.
Variable parse_key : PEM -> result Key.
Variable serialize_key : Key -> PEM.
Variable ec_generate_private_key : curve -> Key.
Variable rsa_generate_private_key : Z -> Z -> Key.

Local Abbreviation decode :=
  (decode parse_key serialize_key ec_generate_private_key rsa_generate_private_key).
Local Abbreviation encode := (encode parse_key).
Local Abbreviation IDSIdentity_init :=
  (IDSIdentity_init PEM parse_key serialize_key
     ec_generate_private_key rsa_generate_private_key).

(** What [decode] does once the constant fields are in place. *)
Lemma decode_well_tagged (inp : bytes) :
  well_tagged inp ->
  decode inp =
    (ec_key <- EllipticCurvePublicNumbers_public_key
                 (int_from_bytes (slice inp 8 40)) (int_from_bytes (slice inp 40 72)) ;;
     rsa_key <- RSAPublicNumbers_public_key 65537 (int_from_bytes (slice inp 83 244)) ;;
     Ok (mkIdentity None (serialize_key ec_key) None (serialize_key rsa_key))).
Proof.
  intros (T0 & T1 & T2 & T3 & T4 & T5 & T6).
  rewrite decode_by_offsets, T0, T1, T2, T3, T4, T5, T6. reflexivity.
Qed.

Lemma not_well_tagged (inp : bytes) :
  ~ well_tagged inp -> decode inp = Raise AssertionError.
Proof.
  intros H. rewrite decode_by_offsets.
  repeat match goal with
         | |- context [py_assert (bytes_eqb ?a ?b)] =>
             let E := fresh "E" in
             destruct (bytes_eqb a b) eqn:E; [apply bytes_eqb_eq in E|reflexivity];
             cbn [py_assert bind Ok]
         end.
  exfalso. apply H. repeat split; assumption.
Qed.

Lemma encode_ok_inv (self : IDSIdentity PEM) (out : bytes) :
  encode self = Ok out ->
  exists c x y e n,
    parse_key (signing_public_key self) = Ok (ECPublicKey (mkEC x y c))
    /\ parse_key (encryption_public_key self) = Ok (RSAPublicKey (mkRSA e n))
    /\ 0 <= x < 256 ^ 32 /\ 0 <= y < 256 ^ 32 /\ 0 <= n < 256 ^ 161
    /\ out = List.concat [[x30; x81; xf6; x81; x43]; [x00; x41; x04];
                          be_digits 32 x; be_digits 32 y; [x82; x81; xae];
                          [x00; xac]; [x30; x81; xa9]; [x02; x81; xa1];
                          be_digits 161 n; [x02; x03; x01; x00; x01]].
Proof.
  intros H. pose proof H as H'. unfold encode in H.
  destruct (parse_key (encryption_public_key self)) as [e1|ke] eqn:Ee;
    [discriminate H|].
  cbn [bind] in H.
  destruct ke as [? ?|?|? ?|[e n]]; try discriminate H.
  cbn [public_numbers_n bind Ok rsa_n] in H.
  destruct (int_to_bytes n 161) as [e2|bn] eqn:En; [discriminate H|].
  cbn [bind] in H.
  destruct (parse_key (signing_public_key self)) as [e3|ks] eqn:Es;
    [discriminate H|].
  cbn [bind] in H.
  destruct ks as [? ?|[x y c]|? ?|?]; try discriminate H.
  cbn [public_numbers_x public_numbers_y bind Ok ec_x ec_y] in H.
  destruct (int_to_bytes x 32) as [e4|bx] eqn:Ex; [discriminate H|].
  cbn [bind] in H.
  destruct (int_to_bytes y 32) as [e5|by_] eqn:Ey; [discriminate H|].
  apply int_to_bytes_inv in En, Ex, Ey.
  destruct En as [Hn _], Ex as [Hx _], Ey as [Hy _].
  exists c, x, y, e, n.
  rewrite (encode_fits PEM parse_key self c x y e n Es Ee Hx Hy Hn) in H'.
  injection H' as <-. repeat split; try assumption; lia.
Qed.

Lemma provider_errors_are_value_errors (x y n : Z) (e : PyErr) :
  (ec_key <- EllipticCurvePublicNumbers_public_key x y ;;
   rsa_key <- RSAPublicNumbers_public_key 65537 n ;;
   Ok (mkIdentity None (serialize_key ec_key) None (serialize_key rsa_key)))
  = Raise e ->
  exists msg, e = ValueError msg.
Proof.
  unfold EllipticCurvePublicNumbers_public_key, RSAPublicNumbers_public_key.
  destruct (P256_on_curve x y); cbn [bind Ok Raise];
    [|intros H; injection H as <-; eexists; reflexivity].
  destruct (n <? 3); cbn [bind Raise];
    [intros H; injection H as <-; eexists; reflexivity|].
  destruct ((65537 <? 3) || (n <=? 65537)); cbn [bind Raise];
    [intros H; injection H as <-; eexists; reflexivity|].
  discriminate.
Qed.


(** X2.  [decode] raises its assertion error exactly when one of the
    seven constant fields is not in place: a wrong coordinate or modulus is
    never reported that way. *)
Theorem decode_assertion_iff (inp : bytes) :
  decode inp = Raise AssertionError <-> ~ well_tagged inp.
Proof.
  split.
  - intros Hd Ht. rewrite (decode_well_tagged inp Ht) in Hd.
    destruct (provider_errors_are_value_errors _ _ _ _ Hd) as [msg Hm].
    discriminate Hm.
  - apply not_well_tagged.
Qed.

(** X3.  An input of fewer than 249 bytes, the empty one included, is
    refused with the assertion error. *)
Theorem decode_short_input (inp : bytes) :
  (List.length inp < 249)%nat -> decode inp = Raise AssertionError.
Proof.
  intros H. apply not_well_tagged. intros Ht.
  apply well_tagged_length in Ht. lia.
Qed.

(** X4.  [decode] reads the first 249 bytes only: what follows them is
    ignored. *)
Theorem decode_ignores_trailing_bytes (inp : bytes) :
  decode inp = decode (firstn 249 inp).
Proof.
  rewrite !decode_by_offsets, !slice_firstn by lia. reflexivity.
Qed.


(** X7.  Two identities with the same container have the same coordinates
    and the same modulus; their curves and exponents need not agree. *)
Theorem encode_same_container (a b : IDSIdentity PEM) (out : bytes) :
  encode a = Ok out -> encode b = Ok out ->
  exists x y n ca cb ea eb,
    parse_key (signing_public_key a) = Ok (ECPublicKey (mkEC x y ca))
    /\ parse_key (signing_public_key b) = Ok (ECPublicKey (mkEC x y cb))
    /\ parse_key (encryption_public_key a) = Ok (RSAPublicKey (mkRSA ea n))
    /\ parse_key (encryption_public_key b) = Ok (RSAPublicKey (mkRSA eb n)).
Proof.
  intros Ha Hb.
  destruct (encode_ok_inv a out Ha)
    as (ca & xa & ya & ea & na & Sa & Ea & Hxa & Hya & Hna & Oa).
  destruct (encode_ok_inv b out Hb)
    as (cb & xb & yb & eb & nb & Sb & Eb & Hxb & Hyb & Hnb & Ob).
  destruct (container_fields xa ya na) as (_ & _ & _ & Fx & Fy & _ & _ & _ & _ & Fn & _).
  destruct (container_fields xb yb nb) as (_ & _ & _ & Gx & Gy & _ & _ & _ & _ & Gn & _).
  cbv zeta in Fx, Fy, Fn, Gx, Gy, Gn.
  rewrite <- Oa in Fx, Fy, Fn. rewrite <- Ob in Gx, Gy, Gn.
  assert (xa = xb).
  { rewrite <- (int_from_be_digits 32 xa), <- (int_from_be_digits 32 xb) by assumption.
    congruence. }
  assert (ya = yb).
  { rewrite <- (int_from_be_digits 32 ya), <- (int_from_be_digits 32 yb) by assumption.
    congruence. }
  assert (na = nb).
  { rewrite <- (int_from_be_digits 161 na), <- (int_from_be_digits 161 nb) by assumption.
    congruence. }
  subst xb yb nb. exists xa, ya, na, ca, cb, ea, eb. repeat split; assumption.
Qed.

(** X8.  [encode] looks at the encryption key first.  An encryption key
    that does not parse gives the error of [parse_key], and one that is an
    elliptic-curve key gives [AttributeError], whatever the signing key is;
    with an RSA key whose modulus fits, a signing key that is an RSA key
    gives [AttributeError]. *)
Theorem encode_key_errors (self : IDSIdentity PEM) :
  (forall e, parse_key (encryption_public_key self) = Raise e -> encode self = Raise e)
  /\ (forall p, parse_key (encryption_public_key self) = Ok (ECPublicKey p) ->
        encode self = Raise (AttributeError "n"))
  /\ (forall e n p,
        parse_key (encryption_public_key self) = Ok (RSAPublicKey (mkRSA e n)) ->
        0 <= n < 256 ^ 161 ->
        parse_key (signing_public_key self) = Ok (RSAPublicKey p) ->
        encode self = Raise (AttributeError "x")).
Proof.
  repeat split.
  - intros e H. unfold encode. rewrite H. reflexivity.
  - intros p H. unfold encode. rewrite H. reflexivity.
  - intros e n p He Hn Hs. unfold encode. rewrite He.
    cbn [bind Ok public_numbers_n rsa_n].
    rewrite (int_to_bytes_ok n 161 Hn), Hs. reflexivity.
Qed.

(** X9.  Changing a byte of an accepted container outside the constant
    fields never raises the assertion error: the result is another identity
    or the provider's [ValueError]. *)
Theorem decode_coordinate_change (inp : bytes) (id : IDSIdentity PEM)
    (i : nat) (b : byte) :
  decode inp = Ok id ->
  in_tag_region i = false ->
  (exists id', decode (set_byte inp i b) = Ok id')
  \/ (exists msg, decode (set_byte inp i b) = Raise (ValueError msg)).
Proof.
  intros Hd Hi.
  pose proof (decode_accepts_tags _ _ _ _ _ inp id Hd) as Ht.
  pose proof (well_tagged_length inp Ht) as Hlen.
  assert (Hr : (8 <= i < 72 \/ 83 <= i < 244 \/ 249 <= i)%nat).
  { unfold in_tag_region in Hi.
    apply orb_false_elim in Hi. destruct Hi as [Hi H3].
    apply orb_false_elim in Hi. destruct Hi as [H1 H2].
    apply Nat.ltb_ge in H1.
    apply andb_false_iff in H2, H3.
    rewrite Nat.leb_gt, Nat.ltb_ge in H2, H3. lia. }
  assert (Ht' : well_tagged (set_byte inp i b)).
  { destruct Ht as (T0 & T1 & T2 & T3 & T4 & T5 & T6).
    unfold well_tagged. rewrite !slice_set_byte_outside by lia.
    repeat split; assumption. }
  rewrite (decode_well_tagged _ Ht').
  match goal with
  | |- (exists id', ?r = Ok id') \/ _ => destruct r as [e|id'] eqn:E
  end.
  - right. destruct (provider_errors_are_value_errors _ _ _ _ E) as [msg ->].
    exists msg. reflexivity.
  - left. exists id'. reflexivity.
Qed.

(** X18.  The container depends on the two coordinates and the modulus
    only: identities whose public keys have these numbers in common are
    encoded alike, whatever their private keys, curves and exponents. *)
Theorem encode_depends_on_numbers_only (a b : IDSIdentity PEM)
    (x y n ea eb : Z) (ca cb : curve) :
  parse_key (signing_public_key a) = Ok (ECPublicKey (mkEC x y ca)) ->
  parse_key (signing_public_key b) = Ok (ECPublicKey (mkEC x y cb)) ->
  parse_key (encryption_public_key a) = Ok (RSAPublicKey (mkRSA ea n)) ->
  parse_key (encryption_public_key b) = Ok (RSAPublicKey (mkRSA eb n)) ->
  encode a = encode b.
Proof.
  intros Sa Sb Ea Eb. unfold encode. rewrite Sa, Sb, Ea, Eb. reflexivity.
Qed.

(** X19.  Public keys given alone are stored without being parsed: an
    identity is built even from an encryption public key that does not
    parse, and it is [encode] that raises the error of [parse_key]. *)
Theorem init_defers_parsing (spub epub : PEM) (e : PyErr) :
  parse_key epub = Raise e ->
  exists id,
    IDSIdentity_init None None (Some spub) (Some epub) = Ok id
    /\ encode id = Raise e.
Proof.
  intros H. eexists. split; [reflexivity|].
  unfold encode. cbn [encryption_public_key]. rewrite H. reflexivity.
Qed.

(** X20.  A private signing key is parsed when the identity is built:
    [__init__] raises the error of [parse_key] when it does not parse, and
    [AttributeError] when it is a public key, whatever the other arguments
    are. *)
Theorem init_private_key_errors (skey : PEM) (ek spub epub : option PEM) :
  (forall e, parse_key skey = Raise e ->
     IDSIdentity_init (Some skey) ek spub epub = Raise e)
  /\ (forall p, parse_key skey = Ok (ECPublicKey p) ->
        IDSIdentity_init (Some skey) ek spub epub
        = Raise (AttributeError "public_key"))
  /\ (forall p, parse_key skey = Ok (RSAPublicKey p) ->
        IDSIdentity_init (Some skey) ek spub epub
        = Raise (AttributeError "public_key")).
Proof.
  repeat split; intros x H; unfold IDSIdentity_init, init_key_pair;
    rewrite H; reflexivity.
Qed.

(** [parse_key] reads back what [serialize_key] writes. *)
Hypothesis parse_serialize : forall k : Key, parse_key (serialize_key k) = Ok k.


(** X10.  Whatever its arguments, an identity [__init__] builds with a
    private key stores the public key derived from that private key; a
    private key given is kept and the public key given beside it is not
    looked at; a public key given alone is stored as it is, with no private
    key. *)
Theorem init_keeps_key_pairs
    (sk ek spub epub : option PEM) (id : IDSIdentity PEM) :
  IDSIdentity_init sk ek spub epub = Ok id ->
  (forall key, signing_key id = Some key ->
     exists k p, parse_key key = Ok k /\ public_key k = Ok p
                 /\ signing_public_key id = serialize_key p)
  /\ (forall key, encryption_key id = Some key ->
        exists k p, parse_key key = Ok k /\ public_key k = Ok p
                    /\ encryption_public_key id = serialize_key p)
  /\ (forall key, sk = Some key -> signing_key id = Some key)
  /\ (forall key, ek = Some key -> encryption_key id = Some key)
  /\ (forall pub, sk = None -> spub = Some pub ->
        signing_key id = None /\ signing_public_key id = pub)
  /\ (forall pub, ek = None -> epub = Some pub ->
        encryption_key id = None /\ encryption_public_key id = pub).
Proof.
  assert (P : forall key pub fresh r,
             init_key_pair PEM parse_key serialize_key key pub fresh = Ok r ->
             (forall k0, fst r = Some k0 ->
                exists k p, parse_key k0 = Ok k /\ public_key k = Ok p
                            /\ snd r = serialize_key p)
             /\ (forall k0, key = Some k0 -> fst r = Some k0)
             /\ (forall p0, key = None -> pub = Some p0 -> r = (None, p0))).
  { intros key pub fresh r. unfold init_key_pair.
    destruct key as [k0|]; [|destruct pub as [p0|]].
    - destruct (parse_key k0) as [e|k] eqn:Ek; [discriminate|]. cbn [bind].
      destruct (public_key k) as [e|p] eqn:Ep; [discriminate|]. cbn [bind].
      intros H. injection H as <-. cbn [fst snd]. repeat split.
      + intros k1 H. injection H as <-. exists k, p. repeat split; assumption.
      + intros k1 H. exact H.
      + discriminate.
    - intros H. injection H as <-. cbn [fst snd]. repeat split.
      + discriminate.
      + discriminate.
      + intros p1 _ H. injection H as <-. reflexivity.
    - destruct (parse_key (serialize_key fresh)) as [e|k] eqn:Ek; [discriminate|].
      cbn [bind].
      destruct (public_key k) as [e|p] eqn:Ep; [discriminate|]. cbn [bind].
      intros H. injection H as <-. cbn [fst snd]. repeat split.
      + intros k1 H. injection H as <-. exists k, p. repeat split; assumption.
      + discriminate.
      + discriminate. }
  unfold IDSIdentity_init.
  destruct (init_key_pair PEM parse_key serialize_key sk spub _) as [e|[s1 s2]] eqn:E1;
    [discriminate|]. cbn [bind].
  destruct (init_key_pair PEM parse_key serialize_key ek epub _) as [e|[e1 e2]] eqn:E2;
    [discriminate|]. cbn [bind].
  intros H. injection H as <-.
  cbn [signing_key signing_public_key encryption_key encryption_public_key].
  destruct (P _ _ _ _ E1) as (A1 & A2 & A3).
  destruct (P _ _ _ _ E2) as (B1 & B2 & B3).
  cbn [fst snd] in A1, A2, B1, B2.
  repeat apply conj.
  - exact A1.
  - exact B1.
  - exact A2.
  - exact B2.
  - intros pub Hs Hp. specialize (A3 pub Hs Hp). injection A3 as -> ->.
    split; reflexivity.
  - intros pub Hs Hp. specialize (B3 pub Hs Hp). injection B3 as -> ->.
    split; reflexivity.
Qed.

(** X11.  [IDSIdentity()] with no argument: when the generators return a
    P-256 key and an RSA key with exponent 65537 and a modulus of at most
    1280 bits, the identity built holds the two generated private keys and
    [encode] turns it into a container of 249 bytes. *)
Theorem init_fresh_identity_encodes (d d' x y n : Z) :
  ec_generate_private_key SECP256R1 = ECPrivateKey d (mkEC x y SECP256R1) ->
  P256_on_curve x y = true ->
  rsa_generate_private_key 65537 1280 = RSAPrivateKey d' (mkRSA 65537 n) ->
  0 <= n < 2 ^ 1280 ->
  exists id out,
    IDSIdentity_init None None None None = Ok id
    /\ signing_key id = Some (serialize_key (ec_generate_private_key SECP256R1))
    /\ encryption_key id = Some (serialize_key (rsa_generate_private_key 65537 1280))
    /\ encode id = Ok out
    /\ List.length out = 249%nat.
Proof.
  intros Hg Hc Hr Hn.
  destruct (P256_point_fits x y Hc) as [Hx Hy].
  unfold IDSIdentity_init, init_key_pair.
  rewrite !parse_serialize, Hg, Hr. cbn [bind Ok public_key].
  eexists. eexists. split; [reflexivity|].
  cbn [signing_key encryption_key]. split; [reflexivity|]. split; [reflexivity|].
  split.
  - apply (encode_fits PEM parse_key _ SECP256R1 x y 65537 n);
      cbn [signing_public_key encryption_public_key];
      try apply parse_serialize; try assumption.
    assert (2 ^ 1280 < 256 ^ 161) by (vm_compute; reflexivity). lia.
  - destruct (container_fields x y n) as (F & _). exact F.
Qed.

(** X12.  [__init__] does not look at the kind of its keys: with an RSA
    private key as signing key and an elliptic-curve private key as
    encryption key it builds an identity, which [encode] then refuses with
    [AttributeError]. *)
Theorem init_swapped_keys_fail_in_encode
    (skey ekey : PEM) (spub epub : option PEM) (d d' : Z)
    (q : RSAPublicNumbers) (p : EllipticCurvePublicNumbers) :
  parse_key skey = Ok (RSAPrivateKey d q) ->
  parse_key ekey = Ok (ECPrivateKey d' p) ->
  exists id,
    IDSIdentity_init (Some skey) (Some ekey) spub epub = Ok id
    /\ encode id = Raise (AttributeError "n").
Proof.
  intros Hs He. unfold IDSIdentity_init, init_key_pair.
  rewrite Hs, He. cbn [bind Ok public_key].
  eexists. split; [reflexivity|].
  unfold encode. cbn [encryption_public_key]. rewrite parse_serialize. reflexivity.
Qed.

End Container.

(** X13.  [decode] never asks for a new key: its result is the same
    whatever the key generators would return. *)
Theorem decode_never_generates (PEM : Type) (parse_key : PEM -> result Key)
    (serialize_key : Key -> PEM) (ec_gen ec_gen' : curve -> Key)
    (rsa_gen rsa_gen' : Z -> Z -> Key) (inp : bytes) :
  decode parse_key serialize_key ec_gen rsa_gen inp
  = decode parse_key serialize_key ec_gen' rsa_gen' inp.
Proof.
  rewrite !decode_by_offsets. reflexivity.
Qed.


(** * Further properties of the registration *)

Lemma validate_response_dict_only (r : pyval) :
  validate_response r = Ok tt -> exists d, r = PDict d.
Proof.
  destruct r as [ |n|b|f|s|b|t|n|l|d]; try discriminate.
  - unfold validate_response, py_and. cbn [py_contains py_getitem bind Ok Raise].
    destruct (is_some (index 0 "status" s)); cbn [bind]; [discriminate|].
    destruct (is_some (index 0 "services" s)); cbn [negb bind]; discriminate.
  - unfold validate_response, py_and. cbn [py_contains py_getitem bind Ok Raise].
    destruct (existsb _ l); cbn [bind]; [discriminate|].
    destruct (existsb _ l); cbn [negb bind]; discriminate.
  - intros _. exists d. reflexivity.
Qed.

Lemma validate_response_status (d : list (pyval * pyval)) :
  validate_response (PDict d) = Ok tt -> status_passes d = true.
Proof.
  rewrite validate_response_dict. cbv zeta. unfold status_passes.
  destruct (dict_get d "status") as [s|]; [|reflexivity].
  destruct (py_eq_int s 6004); [discriminate|].
  destruct (py_eq_int s 0); [reflexivity|discriminate].
Qed.

Section Exchange.

Variable PEM : Type.
Variable parse_key : PEM -> result Key.
Variable KeyPair : Type.
Variable PROTOCOL_VERSION : pyval.
Variable add_auth_signature :
  list (string * pyval) -> bytes -> string -> KeyPair -> KeyPair -> pyval -> Z ->
  result (list (string * pyval)).
Variable armour_cert : pyval -> string.
Variable uuid4_hex_upper : string.
Variable plistlib_dumps : pyval -> result bytes.
Variable plistlib_loads : bytes -> result pyval.
Variable requests_post : string -> list (string * pyval) -> bytes -> result bytes.

Local Abbreviation process_response := (process_response armour_cert).
Local Abbreviation register :=
  (register parse_key KeyPair PROTOCOL_VERSION add_auth_signature armour_cert
     uuid4_hex_upper plistlib_dumps plistlib_loads requests_post).

(** X14.  [register] fails before anything is serialised, signed or sent
    when the identity cannot be encoded or the validation data are not
    base64: it raises the error of [encode], and with an encodable identity
    the error of [b64decode], whatever the codec, the signer and the server
    would do. *)
Theorem register_fails_before_sending (push_token : pyval) (handles : list pyval)
    (user_id : pyval) (auth_key push_key : KeyPair) (identity : IDSIdentity PEM)
    (validation_data : pyval) (e : PyErr) :
  (encode parse_key identity = Raise e ->
   register push_token handles user_id auth_key push_key identity validation_data
   = Raise e)
  /\ (forall key, encode parse_key identity = Ok key ->
        b64decode validation_data = Raise e ->
        register push_token handles user_id auth_key push_key identity validation_data
        = Raise e).
Proof.
  split.
  - intros H. unfold register, build_body. rewrite H. reflexivity.
  - intros key H Hv. unfold register, build_body. rewrite H, Hv. reflexivity.
Qed.

(** X15.  Whatever the server answers, a call of [register] that returns
    returns exactly four entries, named after the four services in the
    order of the catalog. *)
Theorem register_returns_four_names (push_token : pyval) (handles : list pyval)
    (user_id : pyval) (auth_key push_key : KeyPair) (identity : IDSIdentity PEM)
    (validation_data : pyval) (m : list (string * string)) :
  register push_token handles user_id auth_key push_key identity validation_data
  = Ok m ->
  map fst m = ["com.apple.madrid"; "com.apple.private.alloy.facetime.multi";
               "com.apple.ess"; "com.apple.private.alloy.multiplex1"].
Proof.
  unfold register.
  destruct (build_body _ _ _ _ _ _) as [e|body]; [discriminate|]. cbn [bind].
  destruct (plistlib_dumps body) as [e|data]; [discriminate|]. cbn [bind].
  destruct (add_auth_signature _ _ _ _ _ _ _) as [e|headers]; [discriminate|].
  cbn [bind].
  destruct (requests_post _ _ _) as [e|content]; [discriminate|]. cbn [bind].
  destruct (plistlib_loads content) as [e|r]; [discriminate|]. cbn [bind].
  unfold process_response, extract_certs.
  destruct (validate_response r) as [e|[]]; [discriminate|]. cbn [bind].
  destruct (cert_at r 0) as [e|c0]; [discriminate|]. cbn [bind].
  destruct (cert_at r 1) as [e|c1]; [discriminate|]. cbn [bind].
  destruct (cert_at r 2) as [e|c2]; [discriminate|]. cbn [bind].
  destruct (cert_at r 3) as [e|c3]; [discriminate|]. cbn [bind].
  intros H. injection H as <-. reflexivity.
Qed.

(** X16.  An answer is accepted only if it is a dictionary that passes the
    status check and whose services entry is a list of at least four
    elements or a dictionary with entries under the keys 0, 1, 2 and 3. *)
Theorem process_response_accepts_only (r : pyval) (m : list (string * string)) :
  process_response r = Ok m ->
  exists d services,
    r = PDict d
    /\ status_passes d = true
    /\ dict_get d "services" = Some services
    /\ ((exists l, services = PList l /\ (4 <= List.length l)%nat)
        \/ (exists sd, services = PDict sd
            /\ forall i, (i < 4)%nat -> dict_get_int sd (Z.of_nat i) <> None)).
Proof.
  unfold process_response, extract_certs.
  destruct (validate_response r) as [e|[]] eqn:Hv; [discriminate|]. cbn [bind].
  destruct (validate_response_dict_only r Hv) as [d ->].
  destruct (cert_at (PDict d) 0) as [e|c0] eqn:H0; [discriminate|]. cbn [bind].
  destruct (cert_at (PDict d) 1) as [e|c1] eqn:H1; [discriminate|]. cbn [bind].
  destruct (cert_at (PDict d) 2) as [e|c2] eqn:H2; [discriminate|]. cbn [bind].
  destruct (cert_at (PDict d) 3) as [e|c3] eqn:H3; [discriminate|]. intros _.
  destruct (cert_at_ok d 0 c0 H0) as (services & sd0 & ? & ? & S0 & I0 & _).
  destruct (cert_at_ok d 1 c1 H1) as (services1 & sd1 & ? & ? & S1 & I1 & _).
  destruct (cert_at_ok d 2 c2 H2) as (services2 & sd2 & ? & ? & S2 & I2 & _).
  destruct (cert_at_ok d 3 c3 H3) as (services3 & sd3 & ? & ? & S3 & I3 & _).
  assert (services1 = services) by congruence.
  assert (services2 = services) by congruence.
  assert (services3 = services) by congruence.
  subst services1 services2 services3.
  exists d, services. repeat split.
  - apply validate_response_status. exact Hv.
  - exact S0.
  - destruct (py_index_dict services 3 sd3 I3) as [(l & -> & Hl)|(sd & -> & Hd)].
    + left. exists l. split; [reflexivity|].
      assert (Hn : nth_error l 3 <> None) by congruence.
      apply nth_error_Some in Hn. lia.
    + right. exists sd. split; [reflexivity|].
      cbn [py_index] in I0, I1, I2.
      intros i Hi.
      destruct i as [|[|[|[|i]]]]; [| | | |lia].
      * destruct (dict_get_int sd (Z.of_nat 0)); [discriminate|discriminate I0].
      * destruct (dict_get_int sd (Z.of_nat 1)); [discriminate|discriminate I1].
      * destruct (dict_get_int sd (Z.of_nat 2)); [discriminate|discriminate I2].
      * rewrite Hd. discriminate.
Qed.

(** X17.  An answer that passes the status check with an empty list of
    services, or whose first service has an empty list of users, makes
    [register] raise [IndexError], not one of its own exceptions. *)
Theorem empty_lists_raise_index_error (d : list (pyval * pyval)) :
  status_passes d = true ->
  (dict_get d "services" = Some (PList []) ->
   process_response (PDict d) = Raise IndexError)
  /\ (forall sd rest,
        dict_get d "services" = Some (PList (PDict sd :: rest)) ->
        dict_get sd "users" = Some (PList []) ->
        process_response (PDict d) = Raise IndexError).
Proof.
  intros Hp. unfold process_response.
  rewrite (validate_response_passed_status d Hp). split.
  - intros ->. reflexivity.
  - intros sd rest -> Hu.
    cbn [py_index nth_error bind Ok py_contains py_getitem]. rewrite Hu. reflexivity.
Qed.

End Exchange.

(** ** The further properties at concrete inputs *)


Lemma decode_assertion_iff_witness : plain_decode [] = Raise AssertionError.
Proof.
  apply (proj2 (decode_assertion_iff Key plain_parse_key plain_serialize_key
                  fixed_ec_generate_private_key fixed_rsa_generate_private_key [])).
  intros [H _]. discriminate H.
Defined.

Lemma decode_short_input_witness :
  plain_decode (firstn 248 facetime_identity_key) = Raise AssertionError.
Proof.
  apply (decode_short_input Key plain_parse_key plain_serialize_key
           fixed_ec_generate_private_key fixed_rsa_generate_private_key).
  vm_compute. reflexivity.
Defined.



Lemma encode_same_container_witness :
  exists x y n ca cb ea eb,
    plain_parse_key (signing_public_key sample_identity)
      = Ok (ECPublicKey (mkEC x y ca))
    /\ plain_parse_key (signing_public_key identity_e3)
       = Ok (ECPublicKey (mkEC x y cb))
    /\ plain_parse_key (encryption_public_key sample_identity)
       = Ok (RSAPublicKey (mkRSA ea n))
    /\ plain_parse_key (encryption_public_key identity_e3)
       = Ok (RSAPublicKey (mkRSA eb n)).
Proof.
  destruct (encode plain_parse_key sample_identity) as [e|out] eqn:E;
    [vm_compute in E; discriminate E|].
  apply (encode_same_container Key plain_parse_key sample_identity identity_e3 out E).
  transitivity (encode plain_parse_key sample_identity);
    [vm_compute; reflexivity|exact E].
Defined.

Lemma encode_key_errors_witness :
  encode plain_parse_key identity_two_ec = Raise (AttributeError "n").
Proof.
  apply (proj1 (proj2 (encode_key_errors Key plain_parse_key identity_two_ec)) P256_G).
  reflexivity.
Defined.

Lemma decode_coordinate_change_witness :
  (exists id', plain_decode (set_byte facetime_identity_key 10 xff) = Ok id')
  \/ (exists msg,
        plain_decode (set_byte facetime_identity_key 10 xff) = Raise (ValueError msg)).
Proof.
  eapply (decode_coordinate_change Key plain_parse_key plain_serialize_key
            fixed_ec_generate_private_key fixed_rsa_generate_private_key
            facetime_identity_key _ 10%nat xff).
  - vm_compute. reflexivity.
  - reflexivity.
Defined.

Lemma encode_depends_on_numbers_only_witness :
  encode plain_parse_key sample_identity = encode plain_parse_key identity_e3.
Proof.
  apply (encode_depends_on_numbers_only Key plain_parse_key
           sample_identity identity_e3
           (ec_x P256_G) (ec_y P256_G) sample_modulus 65537 3 SECP256R1 SECP256R1);
    reflexivity.
Defined.

Lemma init_defers_parsing_witness :
  exists id,
    IDSIdentity_init (option Key) opt_parse_key opt_serialize_key
      fixed_ec_generate_private_key fixed_rsa_generate_private_key
      None None (Some (Some (ECPublicKey P256_G))) (Some None) = Ok id
    /\ encode opt_parse_key id = Raise (ValueError "Could not deserialize key data.").
Proof.
  apply (init_defers_parsing (option Key) opt_parse_key opt_serialize_key
           fixed_ec_generate_private_key fixed_rsa_generate_private_key
           (Some (ECPublicKey P256_G)) None).
  reflexivity.
Defined.

Lemma init_private_key_errors_witness :
  IDSIdentity_init Key plain_parse_key plain_serialize_key
    fixed_ec_generate_private_key fixed_rsa_generate_private_key
    (Some (ECPublicKey P256_G)) None None None
  = Raise (AttributeError "public_key").
Proof.
  apply (proj1 (proj2 (init_private_key_errors Key plain_parse_key plain_serialize_key
                         fixed_ec_generate_private_key fixed_rsa_generate_private_key
                         (ECPublicKey P256_G) None None None)) P256_G).
  reflexivity.
Defined.

Lemma init_keeps_key_pairs_witness :
  exists k p,
    plain_parse_key (ECPrivateKey 1 P256_G) = Ok k
    /\ public_key k = Ok p
    /\ signing_public_key sample_identity = plain_serialize_key p.
Proof.
  apply (proj1 (init_keeps_key_pairs Key plain_parse_key plain_serialize_key
                  fixed_ec_generate_private_key fixed_rsa_generate_private_key
                  (Some (ECPrivateKey 1 P256_G))
                  (Some (RSAPrivateKey 1 (mkRSA 65537 sample_modulus)))
                  (Some (ECPublicKey SECP256K1_G)) None
                  sample_identity eq_refl)).
  reflexivity.
Defined.

Lemma init_fresh_identity_encodes_witness :
  exists id out,
    IDSIdentity_init Key plain_parse_key plain_serialize_key
      fixed_ec_generate_private_key fixed_rsa_generate_private_key
      None None None None = Ok id
    /\ signing_key id
       = Some (plain_serialize_key (fixed_ec_generate_private_key SECP256R1))
    /\ encryption_key id
       = Some (plain_serialize_key (fixed_rsa_generate_private_key 65537 1280))
    /\ encode plain_parse_key id = Ok out
    /\ List.length out = 249%nat.
Proof.
  apply (init_fresh_identity_encodes Key plain_parse_key plain_serialize_key
           fixed_ec_generate_private_key fixed_rsa_generate_private_key
           (fun k => eq_refl) 1 1 (ec_x P256_G) (ec_y P256_G) sample_modulus).
  - reflexivity.
  - vm_compute. reflexivity.
  - reflexivity.
  - split; vm_compute; congruence.
Defined.

Lemma init_swapped_keys_fail_in_encode_witness :
  exists id,
    IDSIdentity_init Key plain_parse_key plain_serialize_key
      fixed_ec_generate_private_key fixed_rsa_generate_private_key
      (Some (RSAPrivateKey 1 (mkRSA 65537 sample_modulus)))
      (Some (ECPrivateKey 1 P256_G)) None None = Ok id
    /\ encode plain_parse_key id = Raise (AttributeError "n").
Proof.
  apply (init_swapped_keys_fail_in_encode Key plain_parse_key plain_serialize_key
           fixed_ec_generate_private_key fixed_rsa_generate_private_key
           (fun k => eq_refl)
           (RSAPrivateKey 1 (mkRSA 65537 sample_modulus)) (ECPrivateKey 1 P256_G)
           None None 1 1 (mkRSA 65537 sample_modulus) P256_G);
    reflexivity.
Defined.

Lemma register_fails_before_sending_witness :
  sample_register identity_big (PStr "AAAA") = Raise OverflowError.
Proof.
  apply (proj1 (register_fails_before_sending Key plain_parse_key unit (PStr "1640")
                  sample_add_auth_signature sample_armour_cert
                  "0123456789ABCDEF0123456789ABCDEF"
                  sample_plistlib_dumps sample_plistlib_loads sample_requests_post
                  (PBytes [x01; x02]) [PStr "mailto:user@example.com"] (PStr "D:100")
                  tt tt identity_big (PStr "AAAA") OverflowError)).
  vm_compute. reflexivity.
Defined.

Lemma register_returns_four_names_witness :
  exists m,
    sample_register sample_identity (PStr "AAAA") = Ok m
    /\ map fst m = ["com.apple.madrid"; "com.apple.private.alloy.facetime.multi";
                    "com.apple.ess"; "com.apple.private.alloy.multiplex1"].
Proof.
  eexists. split; [vm_compute; reflexivity|].
  apply (register_returns_four_names Key plain_parse_key unit (PStr "1640")
           sample_add_auth_signature sample_armour_cert
           "0123456789ABCDEF0123456789ABCDEF"
           sample_plistlib_dumps sample_plistlib_loads sample_requests_post
           (PBytes [x01; x02]) [PStr "mailto:user@example.com"] (PStr "D:100")
           tt tt sample_identity (PStr "AAAA")).
  vm_compute. reflexivity.
Defined.

Lemma process_response_accepts_only_witness :
  exists d services,
    keyed_response = PDict d
    /\ status_passes d = true
    /\ dict_get d "services" = Some services
    /\ ((exists l, services = PList l /\ (4 <= List.length l)%nat)
        \/ (exists sd, services = PDict sd
            /\ forall i, (i < 4)%nat -> dict_get_int sd (Z.of_nat i) <> None)).
Proof.
  eapply (process_response_accepts_only sample_armour_cert keyed_response).
  vm_compute. reflexivity.
Defined.

Lemma empty_lists_raise_index_error_witness :
  process_response sample_armour_cert
    (PDict [(PStr "status", PInt 0); (PStr "services", PList [])])
  = Raise IndexError.
Proof.
  apply (proj1 (empty_lists_raise_index_error sample_armour_cert
                  [(PStr "status", PInt 0); (PStr "services", PList [])] eq_refl)).
  reflexivity.
Defined.
